(** * claude-to-openclaw-session: the streaming record-conversion pipeline

    A shallow embedding of [src/claude-to-openclaw-session.py]: the short
    identifier digest ([short_id]), the noise filter ([is_command_noise]),
    the content normaliser ([normalize_content]), the model detector
    ([detect_model]) and the stream converter ([convert]).

    Modelling conventions.
    - A Python [str] is modelled by the byte sequence of its UTF-8 encoding
      (a Rocq [string]). A lone surrogate, which [json.loads] returns for an
      escape such as [\ud800] and which UTF-8 cannot encode, is held as the
      three bytes of its generalised encoding (ED, then A0..BF, then a
      continuation byte); [str.encode()] raises on a string that holds one
      and is the identity on the bytes of every other string.
    - A value produced by [json.loads] is a [json]; a Python [dict] is an
      association list in insertion order with distinct keys.
    - A Python exception is a [Raise] in the [result] monad.
    - The output file is the list of objects handed to [json.dumps], one per
      written line. *)

From Stdlib Require Import ZArith Ascii String List Floats Lia Bool.
From stdpp Require Import base option list strings gmap.
Import ListNotations.

Local Open Scope string_scope.
Local Open Scope list_scope.

(** ** hashlib.md5 (RFC 1321) *)

Module MD5.
Local Open Scope Z_scope.

Definition mask32 : Z := 0xFFFFFFFF.
Definition add32 (x y : Z) : Z := Z.land (x + y) mask32.
Definition not32 (x : Z) : Z := Z.lxor x mask32.
Definition rotl32 (x c : Z) : Z :=
  Z.land (Z.lor (Z.shiftl x c) (Z.shiftr x (32 - c))) mask32.

Definition S_table : list Z :=
  [ 7; 12; 17; 22; 7; 12; 17; 22; 7; 12; 17; 22; 7; 12; 17; 22;
    5; 9; 14; 20; 5; 9; 14; 20; 5; 9; 14; 20; 5; 9; 14; 20;
    4; 11; 16; 23; 4; 11; 16; 23; 4; 11; 16; 23; 4; 11; 16; 23;
    6; 10; 15; 21; 6; 10; 15; 21; 6; 10; 15; 21; 6; 10; 15; 21 ].

Definition K_table : list Z :=
  [ 0xd76aa478; 0xe8c7b756; 0x242070db; 0xc1bdceee;
    0xf57c0faf; 0x4787c62a; 0xa8304613; 0xfd469501;
    0x698098d8; 0x8b44f7af; 0xffff5bb1; 0x895cd7be;
    0x6b901122; 0xfd987193; 0xa679438e; 0x49b40821;
    0xf61e2562; 0xc040b340; 0x265e5a51; 0xe9b6c7aa;
    0xd62f105d; 0x02441453; 0xd8a1e681; 0xe7d3fbc8;
    0x21e1cde6; 0xc33707d6; 0xf4d50d87; 0x455a14ed;
    0xa9e3e905; 0xfcefa3f8; 0x676f02d9; 0x8d2a4c8a;
    0xfffa3942; 0x8771f681; 0x6d9d6122; 0xfde5380c;
    0xa4beea44; 0x4bdecfa9; 0xf6bb4b60; 0xbebfbc70;
    0x289b7ec6; 0xeaa127fa; 0xd4ef3085; 0x04881d05;
    0xd9d4d039; 0xe6db99e5; 0x1fa27cf8; 0xc4ac5665;
    0xf4292244; 0x432aff97; 0xab9423a7; 0xfc93a039;
    0x655b59c3; 0x8f0ccc92; 0xffeff47d; 0x85845dd1;
    0x6fa87e4f; 0xfe2ce6e0; 0xa3014314; 0x4e0811a1;
    0xf7537e82; 0xbd3af235; 0x2ad7d2bb; 0xeb86d391 ].

(** [n] little-endian bytes of [x]. *)
Fixpoint le_bytes (n : nat) (x : Z) : list Z :=
  match n with
  | O => []
  | S n' => Z.land x 0xFF :: le_bytes n' (Z.shiftr x 8)
  end.

Fixpoint word_of_bytes (bs : list Z) : Z :=
  match bs with
  | [] => 0
  | b :: bs' => Z.lor b (Z.shiftl (word_of_bytes bs') 8)
  end.

Definition pad (msg : list Z) : list Z :=
  let len := Z.of_nat (length msg) in
  msg ++ [0x80] ++ repeat 0 (Z.to_nat ((55 - len) mod 64))
      ++ le_bytes 8 (Z.land (8 * len) 0xFFFFFFFFFFFFFFFF).

Fixpoint chunks (fuel : nat) (bs : list Z) : list (list Z) :=
  match fuel, bs with
  | O, _ | _, [] => []
  | S fuel', _ => firstn 64 bs :: chunks fuel' (skipn 64 bs)
  end.

Definition words (chunk : list Z) : list Z :=
  map (fun g => word_of_bytes (firstn 4 (skipn (4 * g) chunk))) (seq 0 16).

Definition round (M : list Z) (st : Z * Z * Z * Z) (i : nat) : Z * Z * Z * Z :=
  let '(A, B, C, D) := st in
  let '(F, g) :=
    if (i <? 16)%nat then
      (Z.lor (Z.land B C) (Z.land (not32 B) D), i)
    else if (i <? 32)%nat then
      (Z.lor (Z.land D B) (Z.land (not32 D) C), ((5 * i + 1) mod 16)%nat)
    else if (i <? 48)%nat then
      (Z.lxor (Z.lxor B C) D, ((3 * i + 5) mod 16)%nat)
    else
      (Z.lxor C (Z.lor B (not32 D)), ((7 * i) mod 16)%nat) in
  let F' := add32 (add32 (add32 F A) (nth i K_table 0)) (nth g M 0) in
  (D, add32 B (rotl32 F' (nth i S_table 0)), B, C).

Definition compress (st : Z * Z * Z * Z) (chunk : list Z) : Z * Z * Z * Z :=
  let '(a0, b0, c0, d0) := st in
  let '(A, B, C, D) := fold_left (round (words chunk)) (seq 0 64) st in
  (add32 a0 A, add32 b0 B, add32 c0 C, add32 d0 D).

Definition init : Z * Z * Z * Z :=
  (0x67452301, 0xefcdab89, 0x98badcfe, 0x10325476).

Definition digest (msg : list Z) : list Z :=
  let padded := pad msg in
  let '(a, b, c, d) := fold_left compress (chunks (length padded) padded) init in
  le_bytes 4 a ++ le_bytes 4 b ++ le_bytes 4 c ++ le_bytes 4 d.

Definition hex_digit (n : Z) : ascii :=
  nth (Z.to_nat (Z.land n 0xF))
      (list_ascii_of_string "0123456789abcdef") "0"%char.

Definition hex_byte (b : Z) : list ascii :=
  [hex_digit (Z.shiftr b 4); hex_digit b].

Definition bytes_of_string (s : string) : list Z :=
  map (fun c => Z.of_nat (nat_of_ascii c)) (list_ascii_of_string s).

(** [hashlib.md5(data).hexdigest()] *)
Definition hexdigest (data : string) : string :=
  string_of_list_ascii (concat (map hex_byte (digest (bytes_of_string data)))).
End MD5.

(** [s[:n]] *)
Definition py_prefix (n : nat) (s : string) : string := substring 0 n s.

Example md5_empty : MD5.hexdigest "" = "d41d8cd98f00b204e9800998ecf8427e".
Proof. vm_compute. reflexivity. Qed.

Example md5_abc : MD5.hexdigest "abc" = "900150983cd24fb0d6963f7d28e17f72".
Proof. vm_compute. reflexivity. Qed.

Example md5_fox :
  MD5.hexdigest "The quick brown fox jumps over the lazy dog"
  = "9e107d9d372bb6826bd81d3542a419d6".
Proof. vm_compute. reflexivity. Qed.

Example md5_two_blocks :
  MD5.hexdigest "aaaaaaaaaaaaaaaaaaaaaaaaaaaaaaaaaaaaaaaaaaaaaaaaaaaaaaaa"
  = "3b0c8ac703f828b04c6c197006d17218".
Proof. vm_compute. reflexivity. Qed.

(** ** JSON values *)

Unset Elimination Schemes.

Inductive json : Type :=
| JNull
| JBool (b : bool)
| JInt (n : Z)
| JFloat (f : float)
| JStr (s : string)
| JArr (l : list json)
| JObj (o : list (string * json)).

Set Elimination Schemes.

(** ** Python exceptions as an error monad *)

Inductive exn : Type :=
| AttributeError
| TypeError
| UnicodeEncodeError
| UnicodeDecodeError.

Inductive result (A : Type) : Type :=
| Ok (a : A)
| Raise (e : exn).

Arguments Ok {A} a.
Arguments Raise {A} e.

Definition rbind {A B : Type} (c : result A) (k : A -> result B) : result B :=
  match c with
  | Ok a => k a
  | Raise e => Raise e
  end.

Notation "'let!' x ':=' c 'in' k" := (rbind c (fun x => k))
  (at level 10, x pattern, c at level 100, k at level 200).

Fixpoint mapM {A B : Type} (f : A -> result B) (l : list A) : result (list B) :=
  match l with
  | [] => Ok []
  | x :: l' => let! y := f x in let! ys := mapM f l' in Ok (y :: ys)
  end.

(** ** Text and its encoding *)

(** A string that holds a lone surrogate (U+D800..U+DFFF): the byte ED
    followed by a byte from A0 to BF. The encoding of a character that UTF-8
    can encode never has these two bytes in a row. *)
Fixpoint has_surrogate (s : string) : bool :=
  match s with
  | EmptyString => false
  | String a rest =>
      match rest with
      | EmptyString => false
      | String b _ =>
          (Nat.eqb (nat_of_ascii a) 237
           && Nat.leb 160 (nat_of_ascii b) && Nat.leb (nat_of_ascii b) 191)
          || has_surrogate rest
      end
  end.

(** [s.encode()]: [UnicodeEncodeError] on a lone surrogate, the bytes of
    the string otherwise. *)
Definition encode (s : string) : result string :=
  if has_surrogate s then Raise UnicodeEncodeError else Ok s.

Definition short_id (s : string) : result string :=
  let! data := encode s in
  Ok (py_prefix 8 (MD5.hexdigest data)).

(** The string [json.loads] returns for the escape [\ud800]. *)
Definition lone_surrogate : string :=
  String (ascii_of_nat 237) (String (ascii_of_nat 160) (String (ascii_of_nat 128) "")).

Example short_id_u1 : short_id "u1" = Ok "e4774cdd".
Proof. vm_compute. reflexivity. Qed.

(** ** Python primitives on strings *)

Module Py.

(** [p] is a prefix of [s]: the rest of [s] after it. *)
Fixpoint strip_prefix (p s : list ascii) : option (list ascii) :=
  match p, s with
  | [], _ => Some s
  | _ :: _, [] => None
  | a :: p', b :: s' => if Ascii.eqb a b then strip_prefix p' s' else None
  end.

Definition starts_with (p s : string) : bool :=
  match strip_prefix (list_ascii_of_string p) (list_ascii_of_string s) with
  | Some _ => true
  | None => false
  end.

(** [t in s] for two strings *)
Fixpoint contains (t s : string) : bool :=
  if starts_with t s then true
  else match s with
       | EmptyString => false
       | String _ s' => contains t s'
       end.

(** The characters for which [str.isspace()] holds, as UTF-8 byte
    sequences: U+0009..U+000D, U+001C..U+0020, U+0085, U+00A0, U+1680,
    U+2000..U+200A, U+2028, U+2029, U+202F, U+205F, U+3000. *)
Definition whitespace : list (list ascii) :=
  map (map ascii_of_nat)
    [ [9]; [10]; [11]; [12]; [13]; [28]; [29]; [30]; [31]; [32];
      [194; 133]; [194; 160]; [225; 154; 128];
      [226; 128; 128]; [226; 128; 129]; [226; 128; 130]; [226; 128; 131];
      [226; 128; 132]; [226; 128; 133]; [226; 128; 134]; [226; 128; 135];
      [226; 128; 136]; [226; 128; 137]; [226; 128; 138];
      [226; 128; 168]; [226; 128; 169]; [226; 128; 175];
      [226; 129; 159]; [227; 128; 128] ]%nat.

(** Drop one leading character of [ws], if there is one. *)
Fixpoint drop_one (ws : list (list ascii)) (s : list ascii) : option (list ascii) :=
  match ws with
  | [] => None
  | w :: ws' =>
      match strip_prefix w s with
      | Some r => Some r
      | None => drop_one ws' s
      end
  end.

Fixpoint lstrip_with (ws : list (list ascii)) (fuel : nat) (s : list ascii) : list ascii :=
  match fuel with
  | O => s
  | S fuel' =>
      match drop_one ws s with
      | Some r => lstrip_with ws fuel' r
      | None => s
      end
  end.

Definition lstrip (s : list ascii) : list ascii :=
  lstrip_with whitespace (length s) s.

Definition rstrip (s : list ascii) : list ascii :=
  rev (lstrip_with (map (@rev ascii) whitespace) (length s) (rev s)).

(** [s.strip()] *)
Definition strip (s : string) : string :=
  string_of_list_ascii (rstrip (lstrip (list_ascii_of_string s))).

(** [s.replace("Z", "+00:00")] *)
Fixpoint replace_Z (s : string) : string :=
  match s with
  | EmptyString => EmptyString
  | String c s' =>
      if Ascii.eqb c "Z"%char then "+00:00" ++ replace_Z s'
      else String c (replace_Z s')
  end.

(** [s.split("/", 1)] for an [s] that contains a slash: the text before
    the first slash and the text after it. *)
Fixpoint split_slash (s : string) : string * string :=
  match s with
  | EmptyString => (EmptyString, EmptyString)
  | String c s' =>
      if Ascii.eqb c "/"%char then (EmptyString, s')
      else let '(a, b) := split_slash s' in (String c a, b)
  end.

End Py.

Definition is_empty (s : string) : bool :=
  match s with EmptyString => true | _ => false end.

(** ** Python primitives on JSON values *)

(** Truth value of a parsed JSON value. *)
Definition truthy (v : json) : bool :=
  match v with
  | JNull => false
  | JBool b => b
  | JInt n => negb (Z.eqb n 0)
  | JFloat f => negb (PrimFloat.eqb f 0%float)
  | JStr s => negb (is_empty s)
  | JArr l => match l with [] => false | _ => true end
  | JObj o => match o with [] => false | _ => true end
  end.

(** [v == "s"] for a string literal. *)
Definition eq_str (v : json) (s : string) : bool :=
  match v with
  | JStr x => String.eqb x s
  | _ => false
  end.

Definition isinstance_dict (v : json) : bool :=
  match v with JObj _ => true | _ => false end.

Definition isinstance_str (v : json) : bool :=
  match v with JStr _ => true | _ => false end.

Fixpoint lookup_key (o : list (string * json)) (k : string) : option json :=
  match o with
  | [] => None
  | (k', v) :: o' => if String.eqb k' k then Some v else lookup_key o' k
  end.

(** [o.get(k, d)] on a dict *)
Definition get_default (o : list (string * json)) (k : string) (d : json) : json :=
  match lookup_key o k with
  | Some v => v
  | None => d
  end.

(** [o.get(k)] on a dict *)
Definition get (o : list (string * json)) (k : string) : json :=
  get_default o k JNull.

(** [v.get(k, d)] on any value: only a dict has [get]. *)
Definition py_get (v : json) (k : string) (d : json) : result json :=
  match v with
  | JObj o => Ok (get_default o k d)
  | _ => Raise AttributeError
  end.

(** [v.strip()] on any value: only a string has [strip]. *)
Definition py_strip (v : json) : result string :=
  match v with
  | JStr s => Ok (Py.strip s)
  | _ => Raise AttributeError
  end.

(** ** Noise filter *)

Definition COMMAND_NOISE : list string :=
  [ "<command-name>";
    "<local-command-stdout>";
    "<local-command-caveat>";
    "<command-message>";
    "<command-args>" ].

Definition is_command_noise (content : json) : bool :=
  match content with
  | JStr s => existsb (fun tag => Py.contains tag s) COMMAND_NOISE
  | _ => false
  end.

(** ** Content normaliser *)

Definition text_block (text : json) : json :=
  JObj [("type", JStr "text"); ("text", text)].

(** One element of a [tool_result]'s list content:
    [{"type": "text", "text": b.get("text", "")} if b.get("type") == "text" else b] *)
Definition normalize_nested (b : json) : result json :=
  let! t := py_get b "type" JNull in
  if eq_str t "text" then
    let! x := py_get b "text" (JStr "") in Ok (text_block x)
  else Ok b.

(** The body of the loop over [content]: [Some b] when [b] is appended to
    [blocks], [None] on [continue]. *)
Definition normalize_block (block : json) : result (option json) :=
  let! btype := py_get block "type" (JStr "text") in
  if eq_str btype "text" then
    let! text := py_get block "text" (JStr "") in
    let! stripped := py_strip text in
    if is_empty stripped then Ok None
    else Ok (Some (text_block text))
  else if eq_str btype "thinking" then
    let! thinking := py_get block "thinking" (JStr "") in
    let! signature := py_get block "signature" (JStr "") in
    Ok (Some (JObj [("type", JStr "thinking");
                    ("thinking", thinking);
                    ("signature", signature)]))
  else if eq_str btype "tool_use" then
    let! id := py_get block "id" (JStr "") in
    let! name := py_get block "name" (JStr "") in
    let! input := py_get block "input" (JObj []) in
    Ok (Some (JObj [("type", JStr "tool_use");
                    ("id", id); ("name", name); ("input", input)]))
  else if eq_str btype "tool_result" then
    let! c := py_get block "content" JNull in
    let result_content := if truthy c then c else JStr "" in
    let! result_content :=
      match result_content with
      | JStr s => Ok (JArr [text_block (JStr s)])
      | JArr l => let! l' := mapM normalize_nested l in Ok (JArr l')
      | other => Ok other
      end in
    let! tool_use_id := py_get block "tool_use_id" (JStr "") in
    Ok (Some (JObj [("type", JStr "tool_result");
                    ("tool_use_id", tool_use_id);
                    ("content", result_content)]))
  else Ok (Some block).

Fixpoint normalize_blocks (content blocks : list json) : result (list json) :=
  match content with
  | [] => Ok blocks
  | block :: content' =>
      let! r := normalize_block block in
      normalize_blocks content'
        (match r with Some b => blocks ++ [b] | None => blocks end)
  end.

(** [None] is Python's [None]. *)
Definition normalize_content (content : json) : result (option (list json)) :=
  match content with
  | JStr s =>
      if is_empty (Py.strip s) then Ok None
      else Ok (Some [text_block (JStr s)])
  | JArr l =>
      let! blocks := normalize_blocks l [] in
      Ok (match blocks with [] => None | _ => Some blocks end)
  | _ => Ok None
  end.

Example strip_demo :
  Py.strip (String (ascii_of_nat 31) (" a" ++ String (ascii_of_nat 194) (String (ascii_of_nat 133) "")))
  = "a".
Proof. vm_compute. reflexivity. Qed.

Example normalize_hello :
  normalize_content (JStr "hello") = Ok (Some [text_block (JStr "hello")]).
Proof. vm_compute. reflexivity. Qed.

Example normalize_list_of_string :
  normalize_content (JArr [JStr "hello"]) = Raise AttributeError.
Proof. vm_compute. reflexivity. Qed.

(** ** Conversion state *)

(** The mutable variables of [convert]: the identifier map, the three
    counters, the lines written to the output file after the two header
    lines, and the number of calls made to [uuid.uuid4]. *)
Record state : Type := mkState {
  id_map : gmap string string;
  converted : nat;
  skipped : nat;
  errors : nat;
  out : list json;
  rng : nat
}.

Definition init_state : state :=
  {| id_map := ∅; converted := 0; skipped := 0; errors := 0; out := []; rng := 0 |}.

Definition skip (st : state) : state :=
  {| id_map := id_map st; converted := converted st; skipped := S (skipped st);
     errors := errors st; out := out st; rng := rng st |}.

Definition parse_error (st : state) : state :=
  {| id_map := id_map st; converted := converted st; skipped := skipped st;
     errors := S (errors st); out := out st; rng := rng st |}.

Definition with_id_map (m : gmap string string) (st : state) : state :=
  {| id_map := m; converted := converted st; skipped := skipped st;
     errors := errors st; out := out st; rng := rng st |}.

Definition fresh_uuid (st : state) : state :=
  {| id_map := id_map st; converted := converted st; skipped := skipped st;
     errors := errors st; out := out st; rng := S (rng st) |}.

Definition emit (rec : json) (st : state) : state :=
  {| id_map := id_map st; converted := S (converted st); skipped := skipped st;
     errors := errors st; out := out st ++ [rec]; rng := rng st |}.

(** [get_short(uuid_str)]: a list or a dict is unhashable ([TypeError] at
    [uuid_str not in id_map]); any other value that is not a string is not
    in the map and has no [encode] ([AttributeError] inside [short_id]); a
    string that [short_id] cannot encode raises before the map is
    changed. *)
Definition get_short (uuid_str : json) (st : state) : result (string * state) :=
  match uuid_str with
  | JStr s =>
      match id_map st !! s with
      | Some v => Ok (v, st)
      | None =>
          let! short := short_id s in
          Ok (short, with_id_map (<[s := short]> (id_map st)) st)
      end
  | JArr _ | JObj _ => Raise TypeError
  | _ => Raise AttributeError
  end.

(** The generator [b.get("text", "") for b in norm_content
    if b.get("type") == "text"], collected. *)
Fixpoint text_items (norm_content : list json) : result (list json) :=
  match norm_content with
  | [] => Ok []
  | b :: rest =>
      let! t := py_get b "type" JNull in
      if eq_str t "text" then
        let! x := py_get b "text" (JStr "") in
        let! xs := text_items rest in Ok (x :: xs)
      else text_items rest
  end.

(** [sep.join(items)]: every item must be a string. *)
Fixpoint py_join (sep : string) (items : list json) : result string :=
  match items with
  | [] => Ok ""
  | JStr s :: [] => Ok s
  | JStr s :: rest => let! r := py_join sep rest in Ok (s ++ sep ++ r)%string
  | _ :: _ => Raise TypeError
  end.

(** ["/" in model_id] *)
Definition has_slash (model_id : json) : result bool :=
  match model_id with
  | JStr s => Ok (Py.contains "/" s)
  | JArr l => Ok (existsb (fun x => eq_str x "/") l)
  | JObj o => Ok (match lookup_key o "/" with Some _ => true | None => false end)
  | _ => Raise TypeError
  end.

(** [model_id.split("/", 1)], reached only when ["/" in model_id]. *)
Definition split_model (model_id : json) : result (json * json) :=
  match model_id with
  | JStr s => let '(a, b) := Py.split_slash s in Ok (JStr a, JStr b)
  | _ => Raise AttributeError
  end.

Section Converter.

(** [json.loads]: [None] stands for [json.JSONDecodeError]. *)
Variable loads : string -> option json.

(** [datetime.now(timezone.utc).isoformat()] at the time of the run. *)
Variable now : string.

(** [str(uuid.uuid4())] at its [n]-th call. *)
Variable uuid4 : nat -> string.

(** [int(datetime.fromisoformat(s).timestamp() * 1000)]; [None] when that
    raises. *)
Variable fromisoformat_ms : string -> option Z.

(** [str(v)] for a value that is not a string, as an f-string formats it. *)
Variable py_str : json -> string.

Definition format_value (v : json) : string :=
  match v with
  | JStr s => s
  | _ => py_str v
  end.

(** Any exception is caught and gives 0; only a string has [replace]. *)
Definition parse_ts_ms (raw_ts : json) : Z :=
  match raw_ts with
  | JStr s =>
      match fromisoformat_ms (Py.replace_Z s) with
      | Some ms => ms
      | None => 0%Z
      end
  | _ => 0%Z
  end.

(** The loop of [detect_model]; the second component is the model that
    ended the scan, if any. *)
Fixpoint detect_scan (lines : list string) (first_ts : option json)
  : result (option json * option json) :=
  match lines with
  | [] => Ok (first_ts, None)
  | line :: rest =>
      let line := Py.strip line in
      if is_empty line then detect_scan rest first_ts
      else
        match loads line with
        | None => detect_scan rest first_ts
        | Some d =>
            let! ts := py_get d "timestamp" JNull in
            let first_ts :=
              match first_ts with
              | None => if truthy ts then Some ts else None
              | Some _ => first_ts
              end in
            let! ty := py_get d "type" JNull in
            let! message := py_get d "message" JNull in
            if eq_str ty "assistant" && isinstance_dict message then
              let! m := py_get message "model" JNull in
              if truthy m then Ok (first_ts, Some m)
              else detect_scan rest first_ts
            else detect_scan rest first_ts
        end
  end.

Definition detect_model (input : list string) : result (json * json) :=
  let! (first_ts, model_id) := detect_scan input None in
  Ok (match first_ts with Some ts => ts | None => JStr now end,
      match model_id with Some m => m | None => JStr "claude-opus-4-6" end).

(** The output record built for an accepted input record. *)
Definition oc_message (short : string) (parent_short raw_ts : json)
    (role : json) (norm_content : list json) (msg : list (string * json)) : json :=
  let inner :=
    [("role", role);
     ("content", JArr norm_content);
     ("timestamp", JInt (parse_ts_ms raw_ts))] in
  let inner :=
    if eq_str role "assistant" then
      let inner :=
        if truthy (get msg "model") then inner ++ [("model", get msg "model")]
        else inner in
      if truthy (get msg "id") then inner ++ [("id", get msg "id")]
      else inner
    else inner in
  JObj [("type", JStr "message");
        ("id", JStr short);
        ("parentId", parent_short);
        ("timestamp", raw_ts);
        ("message", JObj inner)].

(** The end of the loop body, for a record that passed every check: the
    identifiers are shortened and the output record is written. The
    default of [d.get("uuid", str(uuid.uuid4()))] is evaluated before the
    lookup, so every accepted record draws a fresh identifier. *)
Definition write_message (first_ts : json) (d msg : list (string * json))
    (role : json) (norm_content : list json) (st : state) : result state :=
  let raw_ts := get_default d "timestamp" first_ts in
  let fresh := uuid4 (rng st) in
  let st := fresh_uuid st in
  let msg_uuid := get_default d "uuid" (JStr fresh) in
  let parent_uuid := get d "parentUuid" in
  let! (short, st) := get_short msg_uuid st in
  let! (parent_short, st) :=
    if truthy parent_uuid then
      let! (p, st) := get_short parent_uuid st in Ok (JStr p, st)
    else Ok (JNull, st) in
  Ok (emit (oc_message short parent_short raw_ts role norm_content msg) st).

(** The second noise check, on the normalised text blocks joined by a
    space. *)
Definition text_only_noise (filter_commands : bool) (role : json)
    (norm_content : list json) : result bool :=
  if filter_commands && eq_str role "user" then
    let! items := text_items norm_content in
    let! text_only := py_join " " items in
    Ok (is_command_noise (JStr text_only))
  else Ok false.

(** The body of the conversion loop for a parsed line [d]; [d.get] raises
    when the line holds a JSON value that is not an object. *)
Definition convert_record (filter_commands : bool) (first_ts : json)
    (d : json) (st : state) : result state :=
  match d with
  | JObj d =>
      let msg_type := get d "type" in
      if negb (eq_str msg_type "user" || eq_str msg_type "assistant")
      then Ok (skip st)
      else
      if truthy (get d "isMeta") then Ok (skip st)
      else
      match get_default d "message" (JObj []) with
      | JObj msg =>
          let role := get msg "role" in
          let content := get msg "content" in
          if negb (eq_str role "user" || eq_str role "assistant")
          then Ok (skip st)
          else
          if filter_commands && eq_str role "user" && isinstance_str content
             && is_command_noise content
          then Ok (skip st)
          else
          let! norm := normalize_content content in
          match norm with
          | None => Ok (skip st)
          | Some norm_content =>
              let! noisy := text_only_noise filter_commands role norm_content in
              if noisy then Ok (skip st)
              else write_message first_ts d msg role norm_content st
          end
      | _ => Ok (skip st)
      end
  | _ => Raise AttributeError
  end.

(** One iteration of [for line in inp]. *)
Definition convert_line (filter_commands : bool) (first_ts : json)
    (st : state) (line : string) : result state :=
  let line := Py.strip line in
  if is_empty line then Ok st
  else
    match loads line with
    | None => Ok (parse_error st)
    | Some d => convert_record filter_commands first_ts d st
    end.

Fixpoint convert_lines (filter_commands : bool) (first_ts : json)
    (lines : list string) (st : state) : result state :=
  match lines with
  | [] => Ok st
  | line :: rest =>
      let! st' := convert_line filter_commands first_ts st line in
      convert_lines filter_commands first_ts rest st'
  end.

Definition session_record (session_id cwd : string) (first_ts : json)
    (provider model_id : json) : json :=
  JObj [("type", JStr "session");
        ("version", JInt 3);
        ("id", JStr session_id);
        ("timestamp", first_ts);
        ("cwd", JStr cwd);
        ("model", JStr (format_value provider ++ "/" ++ format_value model_id)%string)].

(** [id] is [short_id(session_id + "_model")]. *)
Definition model_change_record (id : string) (first_ts : json)
    (provider model_id : json) : json :=
  JObj [("type", JStr "model_change");
        ("id", JStr id);
        ("parentId", JNull);
        ("timestamp", first_ts);
        ("provider", provider);
        ("modelId", model_id)].

(** What [convert] leaves behind when it returns: the lines of the output
    file and the returned tuple. *)
Record conversion : Type := mkConversion {
  output : list json;
  convertedCount : nat;
  skippedCount : nat;
  errorCount : nat;
  firstTimestamp : json;
  modelId : json
}.

Definition convert (input : list string) (session_id cwd : string)
    (filter_commands : bool) : result conversion :=
  let! (first_ts, model_id) := detect_model input in
  let! slash := has_slash model_id in
  let! (provider, model_id) :=
    if slash then split_model model_id
    else Ok (JStr "anthropic", model_id) in
  let! change_id := short_id (session_id ++ "_model") in
  let header :=
    [session_record session_id cwd first_ts provider model_id;
     model_change_record change_id first_ts provider model_id] in
  let! st := convert_lines filter_commands first_ts input init_state in
  Ok {| output := header ++ out st;
        convertedCount := converted st;
        skippedCount := skipped st;
        errorCount := errors st;
        firstTimestamp := first_ts;
        modelId := model_id |}.


(** * Properties *)

(** ** Strings *)

Lemma list_ascii_app (a b : string) :
  list_ascii_of_string (a ++ b) = list_ascii_of_string a ++ list_ascii_of_string b.
Proof. induction a as [|c a IH]; simpl; [reflexivity | now rewrite IH]. Qed.

Lemma string_of_list_app (a b : list ascii) :
  string_of_list_ascii (a ++ b)
  = (string_of_list_ascii a ++ string_of_list_ascii b)%string.
Proof. induction a as [|c a IH]; simpl; [reflexivity | now rewrite IH]. Qed.

Lemma strip_prefix_Some (p s r : list ascii) :
  Py.strip_prefix p s = Some r <-> s = p ++ r.
Proof.
  revert s. induction p as [|a p IH]; intros s; simpl.
  - split; [intros [= ->] | intros ->]; reflexivity.
  - destruct s as [|b s]; [split; discriminate|].
    destruct (Ascii.eqb_spec a b) as [->|Hne].
    + rewrite IH. split; [intros -> | intros [= ->]]; reflexivity.
    + split; [discriminate | intros [= Hab _]; congruence].
Qed.

Lemma starts_with_spec (p s : string) :
  Py.starts_with p s = true <-> exists r, s = (p ++ r)%string.
Proof.
  unfold Py.starts_with.
  destruct (Py.strip_prefix _ _) as [r|] eqn:E.
  - apply strip_prefix_Some in E. split; [intros _ | reflexivity].
    exists (string_of_list_ascii r).
    rewrite <- (string_of_list_ascii_of_string s), E, string_of_list_app.
    now rewrite string_of_list_ascii_of_string.
  - split; [discriminate | intros [r ->]].
    rewrite list_ascii_app in E.
    assert (H : Py.strip_prefix (list_ascii_of_string p)
                  (list_ascii_of_string p ++ list_ascii_of_string r)
                = Some (list_ascii_of_string r)) by now apply strip_prefix_Some.
    congruence.
Qed.

(** [Py.contains t s] decides that [t] occurs in [s] as a substring. *)
Lemma contains_spec (t s : string) :
  Py.contains t s = true <-> exists a b, s = (a ++ t ++ b)%string.
Proof.
  induction s as [|c s IH]; simpl.
  - destruct (Py.starts_with t "") eqn:E.
    + apply starts_with_spec in E as [r E].
      split; [intros _ | reflexivity]. now exists "", r.
    + split; [discriminate | intros (a & b & H)].
      destruct a; [|discriminate]. simpl in H.
      assert (Py.starts_with t "" = true) by (apply starts_with_spec; eauto).
      congruence.
  - destruct (Py.starts_with t (String c s)) eqn:E.
    + apply starts_with_spec in E as [r E].
      split; [intros _ | reflexivity]. now exists "", r.
    + rewrite IH. split.
      * intros (a & b & ->). now exists (String c a), b.
      * intros (a & b & H). destruct a as [|c' a]; simpl in H.
        -- assert (Py.starts_with t (String c s) = true)
             by (apply starts_with_spec; eauto).
           congruence.
        -- injection H as _ ->. eauto.
Qed.

Lemma length_substring_0 (n : nat) (s : string) :
  String.length (substring 0 n s) = Nat.min n (String.length s).
Proof.
  revert s. induction n as [|n IH]; intros [|c s]; simpl; try reflexivity.
  now rewrite IH.
Qed.

Lemma substring_0_chars (n : nat) (s : string) (c : ascii) :
  In c (list_ascii_of_string (substring 0 n s)) -> In c (list_ascii_of_string s).
Proof using.
  revert s. induction n as [|n IH]; intros [|d s]; simpl; try (intros []; fail).
  intros [H|H]; [now left | right; now apply IH].
Qed.

Lemma length_string_of_list (l : list ascii) :
  String.length (string_of_list_ascii l) = length l.
Proof. induction l; simpl; congruence. Qed.

(** ** The digest is 32 lowercase hexadecimal characters *)

Definition lower_hex (c : ascii) : bool :=
  existsb (Ascii.eqb c) (list_ascii_of_string "0123456789abcdef").

Lemma le_bytes_length (n : nat) (x : Z) : length (MD5.le_bytes n x) = n.
Proof. revert x. induction n; intros; simpl; [reflexivity | now rewrite IHn]. Qed.

Lemma digest_length (msg : list Z) : length (MD5.digest msg) = 16.
Proof.
  unfold MD5.digest.
  destruct (fold_left _ _ _) as [[[a b] c] d].
  now rewrite !length_app, !le_bytes_length.
Qed.

Lemma hex_digit_lower (n : Z) : lower_hex (MD5.hex_digit n) = true.
Proof.
  unfold MD5.hex_digit.
  assert (H : (Z.to_nat (Z.land n 0xF) < 16)%nat).
  { change 0xF%Z with (Z.ones 4). rewrite Z.land_ones by lia.
    pose proof (Z.mod_pos_bound n (2 ^ 4) ltac:(lia)). lia. }
  revert H. generalize (Z.to_nat (Z.land n 0xF)). intros k H.
  do 16 (destruct k as [|k]; [reflexivity|]). lia.
Qed.

Lemma hexdigest_length (data : string) : String.length (MD5.hexdigest data) = 32.
Proof.
  unfold MD5.hexdigest. rewrite length_string_of_list.
  pose proof (digest_length (MD5.bytes_of_string data)) as H.
  revert H. generalize (MD5.digest (MD5.bytes_of_string data)). intros l H.
  do 17 (destruct l as [|? l]; try discriminate H). reflexivity.
Qed.

Lemma hexdigest_lower (data : string) (c : ascii) :
  In c (list_ascii_of_string (MD5.hexdigest data)) -> lower_hex c = true.
Proof using.
  unfold MD5.hexdigest. rewrite list_ascii_of_string_of_list_ascii.
  generalize (MD5.digest (MD5.bytes_of_string data)). intros l.
  induction l as [|b l IH]; simpl; [intros []|].
  intros [<-|[<-|H]]; [apply hex_digit_lower | apply hex_digit_lower | now apply IH].
Qed.

(** ** The identifier digest *)

Lemma short_id_ok (s : string) :
  has_surrogate s = false -> short_id s = Ok (py_prefix 8 (MD5.hexdigest s)).
Proof. intros H. unfold short_id, encode. now rewrite H. Qed.

Lemma short_id_raises (s : string) :
  has_surrogate s = true -> short_id s = Raise UnicodeEncodeError.
Proof. intros H. unfold short_id, encode. now rewrite H. Qed.

Lemma short_id_returns (s h : string) :
  short_id s = Ok h ->
  has_surrogate s = false /\ h = py_prefix 8 (MD5.hexdigest s).
Proof.
  unfold short_id, encode. destruct (has_surrogate s); [discriminate|].
  cbn [rbind]. now intros [= <-].
Qed.

Lemma short_id_length (s h : string) : short_id s = Ok h -> String.length h = 8.
Proof.
  intros H. apply short_id_returns in H as [_ ->]. unfold py_prefix.
  now rewrite length_substring_0, hexdigest_length.
Qed.

Lemma short_id_hex (s h : string) :
  short_id s = Ok h -> forallb lower_hex (list_ascii_of_string h) = true.
Proof using.
  intros H. apply short_id_returns in H as [_ ->].
  apply forallb_forall. intros c Hc.
  apply (hexdigest_lower s). unfold py_prefix in Hc.
  now apply substring_0_chars in Hc.
Qed.

(** ** The identifier map *)

(** Every entry of the map sends a long identifier to its digest. *)
Definition memo_ok (m : gmap string string) : Prop :=
  forall k v, m !! k = Some v -> short_id k = Ok v.

Lemma memo_ok_empty : memo_ok ∅.
Proof. intros k v H. now rewrite lookup_empty in H. Qed.

Lemma get_short_str (s h : string) (st : state) :
  memo_ok (id_map st) ->
  short_id s = Ok h ->
  exists m, get_short (JStr s) st = Ok (h, with_id_map m st) /\ memo_ok m.
Proof.
  intros Hm Hs. unfold get_short. destruct (id_map st !! s) as [v|] eqn:E.
  - exists (id_map st). apply Hm in E. rewrite Hs in E. injection E as <-.
    split; [|assumption]. destruct st; reflexivity.
  - rewrite Hs. cbn [rbind]. eexists; split; [reflexivity|].
    intros k v. rewrite lookup_insert. case_decide; [|now apply Hm].
    subst. now intros [= <-].
Qed.

Lemma get_short_surrogate (s : string) (st : state) :
  memo_ok (id_map st) ->
  has_surrogate s = true ->
  get_short (JStr s) st = Raise UnicodeEncodeError.
Proof.
  intros Hm Hs. apply short_id_raises in Hs. unfold get_short.
  destruct (id_map st !! s) as [v|] eqn:E.
  - apply Hm in E. congruence.
  - now rewrite Hs.
Qed.

Lemma get_short_inv (v : json) (st : state) (h : string) (st' : state) :
  memo_ok (id_map st) ->
  get_short v st = Ok (h, st') ->
  exists u m,
    v = JStr u /\ short_id u = Ok h /\ st' = with_id_map m st /\ memo_ok m.
Proof.
  intros Hm H. destruct v as [| | | |u| |]; try discriminate H.
  assert (Hu : short_id u = Ok h).
  { unfold get_short in H. destruct (id_map st !! u) as [w|] eqn:E.
    - injection H as -> _. now apply Hm.
    - destruct (short_id u) as [w|e]; [|discriminate H].
      cbn [rbind] in H. now injection H as -> _. }
  destruct (get_short_str u h st Hm Hu) as (m & E & Hm').
  rewrite E in H. injection H as <-. eauto 10.
Qed.

(** A run of [get_short] calls, in any order, from a given state; a call
    that raises leaves the map as it was. *)
Fixpoint get_short_calls (calls : list string) (st : state) : state :=
  match calls with
  | [] => st
  | s :: rest =>
      match get_short (JStr s) st with
      | Ok (_, st') => get_short_calls rest st'
      | Raise _ => get_short_calls rest st
      end
  end.

Lemma get_short_calls_ok (calls : list string) (st : state) :
  memo_ok (id_map st) -> memo_ok (id_map (get_short_calls calls st)).
Proof.
  revert st. induction calls as [|s calls IH]; intros st Hm;
    cbn [get_short_calls]; [assumption|].
  destruct (get_short (JStr s) st) as [[h st']|e] eqn:E; [|now apply IH].
  apply get_short_inv in E as (u & m & _ & _ & -> & Hm'); [|assumption].
  now apply IH.
Qed.

(** C4, as stated, fails: the string that [json.loads] returns for the
    escape [\ud800] has no UTF-8 encoding, so [short_id] raises
    [UnicodeEncodeError] on it, and so does [get_short] in the first call
    of a run. *)
Lemma short_id_raises_on_lone_surrogate :
  short_id lone_surrogate = Raise UnicodeEncodeError
  /\ get_short (JStr lone_surrogate) init_state = Raise UnicodeEncodeError.
Proof. split; vm_compute; reflexivity. Qed.

(** C4, as the code has it. For every string [s] that holds no lone
    surrogate, [short_id s] returns a string of exactly eight characters,
    all of them lowercase hexadecimal digits; it is a function of the text
    of [s] alone, and the memoised [get_short] returns that same value
    after any sequence of earlier calls. For a string that holds a lone
    surrogate, [short_id] and [get_short] raise [UnicodeEncodeError],
    again after any sequence of earlier calls. *)
Theorem short_id_pure_8_hex (s : string) (calls : list string) :
  if has_surrogate s
  then short_id s = Raise UnicodeEncodeError
       /\ get_short (JStr s) (get_short_calls calls init_state)
          = Raise UnicodeEncodeError
  else exists h,
         short_id s = Ok h
         /\ String.length h = 8
         /\ forallb lower_hex (list_ascii_of_string h) = true
         /\ exists st',
              get_short (JStr s) (get_short_calls calls init_state) = Ok (h, st').
Proof.
  pose proof (get_short_calls_ok calls init_state memo_ok_empty) as Hm.
  destruct (has_surrogate s) eqn:Hs.
  - split; [now apply short_id_raises | now apply get_short_surrogate].
  - pose proof (short_id_ok s Hs) as Hh.
    exists (py_prefix 8 (MD5.hexdigest s)). split; [exact Hh|].
    split; [exact (short_id_length s _ Hh)|].
    split; [exact (short_id_hex s _ Hh)|].
    destruct (get_short_str s (py_prefix 8 (MD5.hexdigest s))
                (get_short_calls calls init_state) Hm Hh) as (m & H & _).
    eauto.
Qed.

(** ** Whitespace *)












(** ** The normaliser *)

(** What the comprehension over a [tool_result]'s list content makes of one
    nested block: a text block keeps its type and text only, any other block
    is kept as it is. *)
Definition nested_image (b : json) : json :=
  match b with
  | JObj n =>
      if eq_str (get n "type") "text" then text_block (get_default n "text" (JStr ""))
      else b
  | _ => b
  end.

(** The elements on which the loop body does not raise. *)
Definition block_ok (b : json) : bool :=
  match b with
  | JObj o =>
      let btype := get_default o "type" (JStr "text") in
      if eq_str btype "text" then isinstance_str (get_default o "text" (JStr ""))
      else if eq_str btype "thinking" then true
      else if eq_str btype "tool_use" then true
      else if eq_str btype "tool_result" then
        match get o "content" with
        | JArr l => forallb isinstance_dict l
        | _ => true
        end
      else true
  | _ => false
  end.

Definition content_ok (content : json) : bool :=
  match content with
  | JArr l => forallb block_ok l
  | _ => true
  end.

Lemma mapM_nested_ok (l : list json) :
  forallb isinstance_dict l = true ->
  mapM normalize_nested l = Ok (map nested_image l).
Proof.
  induction l as [|b l IH]; simpl; [reflexivity|].
  intros [Hb Hl]%andb_prop. rewrite (IH Hl).
  destruct b; try discriminate Hb. unfold normalize_nested. simpl.
  unfold get. destruct (eq_str _ _); reflexivity.
Qed.

Lemma mapM_nested_raises (l : list json) :
  forallb isinstance_dict l = false ->
  mapM normalize_nested l = Raise AttributeError.
Proof.
  induction l as [|b l IH]; simpl; [discriminate|].
  destruct b; simpl; try reflexivity.
  intros Hl. rewrite (IH Hl).
  unfold normalize_nested. simpl. destruct (eq_str _ _); reflexivity.
Qed.

Lemma normalize_block_ok (b : json) :
  block_ok b = true -> exists r, normalize_block b = Ok r.
Proof.
  destruct b as [| | | | |?|o]; try discriminate. unfold block_ok, normalize_block.
  simpl. destruct (eq_str _ "text").
  { destruct (get_default o "text" _); try discriminate. intros _. simpl.
    destruct (is_empty _); eauto. }
  destruct (eq_str _ "thinking"); [eauto|].
  destruct (eq_str _ "tool_use"); [eauto|].
  destruct (eq_str _ "tool_result"); [|eauto].
  unfold get. destruct (get_default o "content" JNull) as [| | | | |l|?] eqn:Ec.
  6: { intros Hl. destruct l as [|b l]; [simpl; eauto|].
       cbn [truthy]. cbv iota. rewrite (mapM_nested_ok _ Hl). simpl. eauto. }
  all: intros _; cbn [truthy].
  all: repeat match goal with
         | |- context [if ?c then _ else _] => destruct c
         | |- context [match ?x with [] => _ | _ :: _ => _ end] => destruct x
         end; simpl; eauto.
Qed.

Lemma normalize_block_raises (b : json) :
  block_ok b = false -> normalize_block b = Raise AttributeError.
Proof.
  destruct b as [| | | | |?|o]; try reflexivity. unfold block_ok, normalize_block.
  simpl. destruct (eq_str _ "text").
  { destruct (get_default o "text" _); try discriminate; reflexivity. }
  destruct (eq_str _ "thinking"); [discriminate|].
  destruct (eq_str _ "tool_use"); [discriminate|].
  destruct (eq_str _ "tool_result"); [|discriminate].
  unfold get. destruct (get_default o "content" JNull) as [| | | | |l|?];
    try discriminate.
  intros Hl. destruct l; [discriminate|].
  simpl truthy. cbv iota. rewrite (mapM_nested_raises _ Hl). reflexivity.
Qed.

Lemma normalize_blocks_ok (l acc : list json) :
  forallb block_ok l = true -> exists r, normalize_blocks l acc = Ok r.
Proof.
  revert acc. induction l as [|b l IH]; intros acc; simpl; [eauto|].
  intros [Hb Hl]%andb_prop.
  destruct (normalize_block_ok b Hb) as [r ->]. simpl. now apply IH.
Qed.

Lemma normalize_blocks_raises (l acc : list json) :
  forallb block_ok l = false -> normalize_blocks l acc = Raise AttributeError.
Proof.
  revert acc. induction l as [|b l IH]; intros acc; simpl; [discriminate|].
  destruct (block_ok b) eqn:Hb; simpl.
  - intros Hl. destruct (normalize_block_ok b Hb) as [r ->]. simpl. now apply IH.
  - intros _. now rewrite (normalize_block_raises b Hb).
Qed.



Lemma get_default_cons_ne (o : list (string * json)) (k k' : string) (v d : json) :
  String.eqb k' k = false -> get_default ((k', v) :: o) k d = get_default o k d.
Proof. intros H. unfold get_default. simpl. now rewrite H. Qed.

(** C2, as the code has it. [normalize_content] is a function of its
    argument alone. It returns a block list or absent, without raising, on
    every content that is not a list and on every list whose elements are
    objects, whose text blocks carry a string as text and whose
    [tool_result] blocks with a list content hold objects only; on every
    other list it raises [AttributeError]. An object without a [type] field
    is treated as the text block it becomes when [type: text] is added. *)
Theorem normalize_content_total_on_objects (content : json) (o : list (string * json)) :
  (content_ok content = true -> exists r, normalize_content content = Ok r)
  /\ (content_ok content = false -> normalize_content content = Raise AttributeError)
  /\ (lookup_key o "type" = None ->
      normalize_block (JObj o) = normalize_block (JObj (("type", JStr "text") :: o))).
Proof.
  split; [|split].
  - destruct content as [| | | |s|l|?]; simpl; eauto.
    + destruct (is_empty _); eauto.
    + intros Hl. destruct (normalize_blocks_ok l [] Hl) as [r ->]. simpl. eauto.
  - destruct content as [| | | |s|l|?]; simpl; try discriminate.
    intros Hl. now rewrite (normalize_blocks_raises l [] Hl).
  - intros Hty. unfold normalize_block. cbn [py_get rbind].
    assert (E1 : get_default o "type" (JStr "text") = JStr "text")
      by (unfold get_default; now rewrite Hty).
    assert (E2 : get_default (("type", JStr "text") :: o) "type" (JStr "text")
                 = JStr "text") by reflexivity.
    rewrite E1, E2. cbn [eq_str String.eqb Ascii.eqb Bool.eqb].
    now rewrite get_default_cons_ne by reflexivity.
Qed.

Lemma normalize_content_total_on_objects_witness :
  (exists r, normalize_content (JArr [JObj [("text", JStr "hi")]]) = Ok r)
  /\ normalize_content (JArr [JObj [("type", JStr "text"); ("text", JInt 5)]])
     = Raise AttributeError
  /\ normalize_block (JObj [("text", JStr "hi")])
     = normalize_block (JObj [("type", JStr "text"); ("text", JStr "hi")]).
Proof.
  split; [|split].
  - apply (normalize_content_total_on_objects
             (JArr [JObj [("text", JStr "hi")]]) []). reflexivity.
  - apply (normalize_content_total_on_objects
             (JArr [JObj [("type", JStr "text"); ("text", JInt 5)]]) []).
    reflexivity.
  - apply (normalize_content_total_on_objects JNull [("text", JStr "hi")]).
    reflexivity.
Defined.

(** C2, as stated, fails: a list whose element is not an object, a text
    block whose text is not a string, and a [tool_result] whose list content
    holds a string all make [normalize_content] raise. *)
Lemma normalize_content_raises :
  normalize_content (JArr [JStr "hello"]) = Raise AttributeError
  /\ normalize_content (JArr [JObj [("type", JStr "text"); ("text", JNull)]])
     = Raise AttributeError
  /\ normalize_content
       (JArr [JObj [("type", JStr "tool_result"); ("content", JArr [JStr "x"])]])
     = Raise AttributeError
  /\ ~ (forall content, exists r, normalize_content content = Ok r).
Proof.
  repeat split; try reflexivity.
  intros H. destruct (H (JArr [JStr "hello"])) as [r Hr]. discriminate Hr.
Qed.





(** ** The conversion loop *)

(** The [message] of a record, as [convert] reads it. *)
Definition message_of (d : list (string * json)) : json :=
  get_default d "message" (JObj []).

(** The classification check on [type]. *)
Definition type_ok (d : list (string * json)) : bool :=
  eq_str (get d "type") "user" || eq_str (get d "type") "assistant".

(** The role check: the message is an object whose role is [user] or
    [assistant]. *)
Definition role_ok (d : list (string * json)) : bool :=
  match message_of d with
  | JObj msg => eq_str (get msg "role") "user" || eq_str (get msg "role") "assistant"
  | _ => false
  end.

(** The content and the role of a record whose message is an object. *)
Definition content_of (d : list (string * json)) : json :=
  match message_of d with
  | JObj msg => get msg "content"
  | _ => JNull
  end.

Definition role_of (d : list (string * json)) : json :=
  match message_of d with
  | JObj msg => get msg "role"
  | _ => JNull
  end.

(** A field of an output record. *)
Definition field (v : json) (k : string) : json :=
  match v with
  | JObj o => get o k
  | _ => JNull
  end.

(** A line of the input that holds the parsed value [d]. *)
Definition line_record (loads : string -> option json) (line : string) (d : json) : Prop :=
  is_empty (Py.strip line) = false /\ loads (Py.strip line) = Some d.

(** A record is accepted when no state makes the loop body skip it. *)
Definition accepted (filter_commands : bool) (d : list (string * json)) : Prop :=
  forall first_ts st,
    convert_record filter_commands first_ts (JObj d) st <> Ok (skip st).

(** A string that [short_id] can encode. *)
Definition encodable_str (v : json) : bool :=
  match v with
  | JStr s => negb (has_surrogate s)
  | _ => false
  end.

Lemma encodable_str_spec (v : json) :
  encodable_str v = true -> exists s, v = JStr s /\ has_surrogate s = false.
Proof.
  destruct v as [| | | |s| |]; try discriminate. cbn [encodable_str].
  intros H. apply negb_true_iff in H. eauto.
Qed.

(** The short parent identifier written for a [parentUuid] value. *)
Inductive parent_link : json -> json -> Prop :=
| parent_none (pu : json) : truthy pu = false -> parent_link pu JNull
| parent_some (p h : string) :
    truthy (JStr p) = true -> short_id p = Ok h -> parent_link (JStr p) (JStr h).

(** What [write_message] writes when it returns. *)
Lemma write_message_inv (first_ts : json) (d msg : list (string * json))
    (role : json) (norm : list json) (st st' : state) :
  memo_ok (id_map st) ->
  write_message first_ts d msg role norm st = Ok st' ->
  exists u h ps m,
    get_default d "uuid" (JStr (uuid4 (rng st))) = JStr u
    /\ short_id u = Ok h
    /\ parent_link (get d "parentUuid") ps
    /\ memo_ok m
    /\ st' = emit (oc_message h ps (get_default d "timestamp" first_ts)
                     role norm msg)
                  (with_id_map m (fresh_uuid st)).
Proof.
  intros Hm H. unfold write_message in H.
  destruct (get_short _ (fresh_uuid st)) as [[short st1]|e] eqn:E1;
    [|discriminate H].
  apply get_short_inv in E1 as (u & m1 & Hu & Hh & -> & Hm1); [|exact Hm].
  cbn [rbind] in H.
  destruct (truthy (get d "parentUuid")) eqn:Ep.
  - destruct (get_short (get d "parentUuid") _) as [[p st2]|e] eqn:E2;
      [|discriminate H].
    apply get_short_inv in E2 as (pu & m2 & Hpu & Hph & -> & Hm2); [|exact Hm1].
    cbn [rbind] in H. injection H as <-.
    exists u, short, (JStr p), m2. repeat split; try assumption.
    rewrite Hpu in Ep |- *. now constructor.
  - cbn [rbind] in H. injection H as <-.
    exists u, short, JNull, m1. repeat split; try assumption. now constructor.
Qed.

(** [get_short] returns on a string that can be encoded, whatever the map
    holds. *)
Lemma get_short_str_returns (s : string) (st : state) :
  has_surrogate s = false ->
  exists v st', get_short (JStr s) st = Ok (v, st').
Proof.
  intros Hs. unfold get_short. destruct (_ !! _); [eauto|].
  rewrite (short_id_ok s Hs). cbn [rbind]. eauto.
Qed.

(** [write_message] returns when the record's [uuid] (the generated one
    when the key is missing) is a string that can be encoded, and its
    [parentUuid] is such a string or is falsy. *)
Lemma write_message_ok (first_ts : json) (d msg : list (string * json))
    (role : json) (norm : list json) (st : state) :
  encodable_str (get_default d "uuid" (JStr (uuid4 (rng st)))) = true ->
  (truthy (get d "parentUuid") = true -> encodable_str (get d "parentUuid") = true) ->
  exists st', write_message first_ts d msg role norm st = Ok st'.
Proof.
  intros Hu Hp. unfold write_message.
  apply encodable_str_spec in Hu as (u & -> & Hu).
  destruct (get_short_str_returns u (fresh_uuid st) Hu) as (v1 & st1 & ->).
  cbn [rbind]. destruct (truthy (get d "parentUuid")) eqn:Ep.
  - specialize (Hp eq_refl). apply encodable_str_spec in Hp as (p & -> & Hp).
    destruct (get_short_str_returns p st1 Hp) as (v2 & st2 & ->).
    cbn [rbind]. eauto.
  - cbn [rbind]. eauto.
Qed.

Lemma get_short_counts (v : json) (st : state) (h : string) (st' : state) :
  get_short v st = Ok (h, st') ->
  converted st' = converted st /\ skipped st' = skipped st
  /\ errors st' = errors st /\ out st' = out st.
Proof.
  unfold get_short. destruct v; try discriminate.
  destruct (_ !! _); [intros [= _ <-]; auto|].
  destruct (short_id _); [|discriminate]. cbn [rbind]. intros [= _ <-]. auto.
Qed.

Lemma write_message_counts (first_ts : json) (d msg : list (string * json))
    (role : json) (norm : list json) (st st' : state) :
  write_message first_ts d msg role norm st = Ok st' ->
  converted st' = S (converted st) /\ skipped st' = skipped st
  /\ errors st' = errors st /\ exists m, out st' = out st ++ [m].
Proof.
  unfold write_message. intros H.
  destruct (get_short _ (fresh_uuid st)) as [[short st1]|e] eqn:E1;
    [|discriminate H].
  assert (F1 : converted st1 = converted st /\ skipped st1 = skipped st
               /\ errors st1 = errors st /\ out st1 = out st).
  { now apply get_short_counts in E1. }
  cbn [rbind] in H. destruct (truthy _).
  - destruct (get_short _ st1) as [[p st2]|e] eqn:E2; [|discriminate H].
    assert (F2 : converted st2 = converted st1 /\ skipped st2 = skipped st1
                 /\ errors st2 = errors st1 /\ out st2 = out st1).
    { now apply get_short_counts in E2. }
    cbn [rbind] in H. injection H as <-. cbn.
    destruct F1 as (A1 & B1 & C1 & D1), F2 as (A2 & B2 & C2 & D2).
    rewrite A2, A1, B2, B1, C2, C1, D2, D1. eauto.
  - cbn [rbind] in H. injection H as <-. cbn.
    destruct F1 as (A1 & B1 & C1 & D1). rewrite A1, B1, C1, D1. eauto.
Qed.

Lemma skip_neq_converted (st st' : state) :
  converted st' = S (converted st) -> st' <> skip st.
Proof. intros H ->. cbn in H. lia. Qed.

(** The loop body on an object either skips it or writes a message. *)
Lemma convert_record_inv (filter_commands : bool) (first_ts : json)
    (d : list (string * json)) (st st' : state) :
  convert_record filter_commands first_ts (JObj d) st = Ok st' ->
  st' = skip st
  \/ exists msg norm,
       message_of d = JObj msg
       /\ type_ok d = true /\ role_ok d = true
       /\ normalize_content (get msg "content") = Ok (Some norm)
       /\ write_message first_ts d msg (get msg "role") norm st = Ok st'.
Proof.
  unfold convert_record, type_ok, role_ok, message_of.
  destruct (eq_str (get d "type") "user" || eq_str (get d "type") "assistant");
    cbn [negb]; [|intros [= <-]; now left].
  destruct (truthy (get d "isMeta")); [intros [= <-]; now left|].
  destruct (get_default d "message" (JObj [])) as [| | | | | |msg];
    try (intros [= <-]; now left).
  destruct (eq_str (get msg "role") "user" || eq_str (get msg "role") "assistant");
    cbn [negb]; [|intros [= <-]; now left].
  destruct (_ && is_command_noise _); [intros [= <-]; now left|].
  destruct (normalize_content _) as [[norm|]|e] eqn:En; cbn [rbind];
    [| intros [= <-]; now left | discriminate].
  destruct (text_only_noise _ _ _) as [[|]|e]; cbn [rbind];
    [intros [= <-]; now left | | discriminate].
  intros H. right. exists msg, norm. auto.
Qed.

Lemma noise_is_str (content : json) :
  is_command_noise content = true -> isinstance_str content = true.
Proof. destruct content; try discriminate; reflexivity. Qed.

Lemma reject_type (filter_commands : bool) (first_ts : json)
    (d : list (string * json)) (st : state) :
  type_ok d = false ->
  convert_record filter_commands first_ts (JObj d) st = Ok (skip st).
Proof. unfold convert_record, type_ok. now intros ->. Qed.


Lemma reject_role (filter_commands : bool) (first_ts : json)
    (d : list (string * json)) (st : state) :
  role_ok d = false ->
  convert_record filter_commands first_ts (JObj d) st = Ok (skip st).
Proof.
  unfold convert_record, role_ok, message_of. intros H.
  destruct (negb _); [reflexivity|].
  destruct (truthy _); [reflexivity|].
  destruct (get_default d "message" (JObj [])); try reflexivity.
  now rewrite H.
Qed.

Lemma reject_raw_noise (first_ts : json) (d : list (string * json)) (st : state) :
  eq_str (role_of d) "user" = true ->
  is_command_noise (content_of d) = true ->
  convert_record true first_ts (JObj d) st = Ok (skip st).
Proof.
  unfold convert_record, role_of, content_of, message_of. intros Hr Hn.
  destruct (negb _); [reflexivity|].
  destruct (truthy _); [reflexivity|].
  destruct (get_default d "message" (JObj [])); try reflexivity.
  rewrite Hr, Hn, (noise_is_str _ Hn). cbn [orb negb andb]. reflexivity.
Qed.



(** A record that passes every check reaches [write_message]. *)
Lemma convert_record_passes (filter_commands : bool) (first_ts : json)
    (d msg : list (string * json)) (norm : list json) (st : state) :
  type_ok d = true ->
  truthy (get d "isMeta") = false ->
  message_of d = JObj msg ->
  role_ok d = true ->
  filter_commands && eq_str (get msg "role") "user" && is_command_noise (get msg "content")
    = false ->
  normalize_content (get msg "content") = Ok (Some norm) ->
  text_only_noise filter_commands (get msg "role") norm = Ok false ->
  convert_record filter_commands first_ts (JObj d) st
  = write_message first_ts d msg (get msg "role") norm st.
Proof.
  unfold convert_record, type_ok, role_ok, message_of.
  intros -> -> -> -> Hraw Hn Ht. cbn [negb].
  destruct (_ && isinstance_str _ && is_command_noise _) eqn:E.
  - apply andb_prop in E as [[Hf%andb_prop _]%andb_prop Hnoise].
    destruct Hf as [-> Hu]. rewrite Hu, Hnoise in Hraw. discriminate Hraw.
  - rewrite Hn. cbn [rbind]. rewrite Ht. reflexivity.
Qed.

Lemma write_message_not_skip (first_ts : json) (d msg : list (string * json))
    (role : json) (norm : list json) (st : state) :
  write_message first_ts d msg role norm st <> Ok (skip st).
Proof.
  intros H. apply write_message_counts in H as (Hc & _). cbn in Hc. lia.
Qed.

(** ** The loop over the lines *)

Lemma convert_lines_app (filter_commands : bool) (first_ts : json)
    (l1 l2 : list string) (st : state) :
  convert_lines filter_commands first_ts (l1 ++ l2) st
  = let! st' := convert_lines filter_commands first_ts l1 st in
    convert_lines filter_commands first_ts l2 st'.
Proof.
  revert st. induction l1 as [|line l1 IH]; intros st; cbn [app convert_lines];
    [reflexivity|].
  destruct (convert_line _ _ _ _) as [st'|e]; cbn [rbind]; [apply IH | reflexivity].
Qed.

Lemma skip_memo (st : state) : id_map (skip st) = id_map st.
Proof. reflexivity. Qed.

(** One line keeps the identifier map sound and only appends to the
    output. *)
Lemma convert_line_invariant (filter_commands : bool) (first_ts : json)
    (st st' : state) (line : string) :
  memo_ok (id_map st) ->
  convert_line filter_commands first_ts st line = Ok st' ->
  memo_ok (id_map st') /\ exists ms, out st' = out st ++ ms.
Proof.
  intros Hm. unfold convert_line.
  destruct (is_empty _).
  { intros [= <-]. split; [assumption|]. exists []. now rewrite app_nil_r. }
  destruct (loads _) as [d|].
  2: { intros [= <-]. split; [assumption|]. exists []. now rewrite app_nil_r. }
  destruct d as [| | | | | |d]; try discriminate.
  intros H. apply convert_record_inv in H as [->|(msg & norm & _ & _ & _ & _ & H)].
  { split; [assumption|]. exists []. now rewrite app_nil_r. }
  apply write_message_inv in H as (u & h & ps & m & _ & _ & _ & Hm' & ->);
    [|assumption].
  split; [assumption|]. cbn. eauto.
Qed.

Lemma convert_lines_invariant (filter_commands : bool) (first_ts : json)
    (lines : list string) (st st' : state) :
  memo_ok (id_map st) ->
  convert_lines filter_commands first_ts lines st = Ok st' ->
  memo_ok (id_map st') /\ exists ms, out st' = out st ++ ms.
Proof.
  revert st. induction lines as [|line lines IH]; intros st Hm; cbn [convert_lines].
  { intros [= <-]. split; [assumption|]. exists []. now rewrite app_nil_r. }
  destruct (convert_line _ _ _ _) as [st1|e] eqn:E; cbn [rbind]; [|discriminate].
  intros H. apply convert_line_invariant in E as (Hm1 & ms1 & E1); [|assumption].
  apply IH in H as (Hm' & ms & E'); [|assumption].
  split; [assumption|]. exists (ms1 ++ ms). now rewrite E', E1, app_assoc.
Qed.

Lemma convert_lines_split (filter_commands : bool) (first_ts : json)
    (l1 l2 : list string) (line : string) (st st_end : state) :
  memo_ok (id_map st) ->
  convert_lines filter_commands first_ts (l1 ++ line :: l2) st = Ok st_end ->
  exists st1 st2 pre post,
    convert_lines filter_commands first_ts l1 st = Ok st1
    /\ memo_ok (id_map st1) /\ out st1 = out st ++ pre
    /\ convert_line filter_commands first_ts st1 line = Ok st2
    /\ memo_ok (id_map st2)
    /\ convert_lines filter_commands first_ts l2 st2 = Ok st_end
    /\ out st_end = out st2 ++ post.
Proof.
  intros Hm. rewrite convert_lines_app.
  destruct (convert_lines _ _ l1 st) as [st1|e] eqn:E1; cbn [rbind convert_lines];
    [|discriminate].
  destruct (convert_line _ _ st1 line) as [st2|e] eqn:E2; cbn [rbind];
    [|discriminate].
  intros E3.
  destruct (convert_lines_invariant _ _ _ _ _ Hm E1) as (Hm1 & pre & Hpre).
  destruct (convert_line_invariant _ _ _ _ _ Hm1 E2) as (Hm2 & _).
  destruct (convert_lines_invariant _ _ _ _ _ Hm2 E3) as (_ & post & Hpost).
  exists st1, st2, pre, post. auto 10.
Qed.

(** What the loop writes for an accepted record. *)
Lemma accepted_line_inv (filter_commands : bool) (first_ts : json)
    (st st' : state) (line : string) (d : list (string * json)) :
  memo_ok (id_map st) ->
  line_record loads line (JObj d) ->
  accepted filter_commands d ->
  convert_line filter_commands first_ts st line = Ok st' ->
  exists msg norm u h ps,
    message_of d = JObj msg
    /\ normalize_content (get msg "content") = Ok (Some norm)
    /\ get_default d "uuid" (JStr (uuid4 (rng st))) = JStr u
    /\ short_id u = Ok h
    /\ parent_link (get d "parentUuid") ps
    /\ out st' = out st ++ [oc_message h ps
                              (get_default d "timestamp" first_ts)
                              (get msg "role") norm msg].
Proof.
  intros Hm [Hne Hload] Hacc. unfold convert_line. rewrite Hne, Hload.
  intros H.
  destruct (convert_record_inv _ _ _ _ _ H)
    as [->|(msg & norm & Hmsg & _ & _ & Hn & Hw)].
  { exfalso. exact (Hacc _ _ H). }
  apply write_message_inv in Hw as (u & h & ps & m & Hu & Hh & Hp & _ & ->);
    [|assumption].
  exists msg, norm, u, h, ps. auto 10.
Qed.

(** ** Rejection of records *)

Lemma write_message_type_irrelevant (first_ts v1 v2 : json)
    (d msg : list (string * json)) (role : json) (norm : list json) (st : state) :
  write_message first_ts (("type", v1) :: d) msg role norm st
  = write_message first_ts (("type", v2) :: d) msg role norm st.
Proof.
  unfold write_message, get.
  now rewrite !(get_default_cons_ne d _ "type") by reflexivity.
Qed.

(** C1, as the code has it. A record is rejected, with [skippedCount]
    incremented and nothing written, when its [type] is not [user] or
    [assistant], or when its message is not an object whose [role] is [user]
    or [assistant] (an absent role included). The role is never compared
    with the type: two records that differ only in which of [user] and
    [assistant] their [type] is are treated alike. *)
Theorem role_check_rejects (filter_commands : bool) (first_ts : json)
    (d : list (string * json)) (st : state) (t1 t2 : string) :
  (type_ok d = false \/ role_ok d = false ->
   convert_record filter_commands first_ts (JObj d) st = Ok (skip st))
  /\ (t1 = "user" \/ t1 = "assistant" ->
      t2 = "user" \/ t2 = "assistant" ->
      convert_record filter_commands first_ts (JObj (("type", JStr t1) :: d)) st
      = convert_record filter_commands first_ts (JObj (("type", JStr t2) :: d)) st).
Proof.
  split.
  - intros [H|H]; [now apply reject_type | now apply reject_role].
  - intros H1 H2. unfold convert_record, get.
    rewrite !(get_default_cons_ne d "isMeta" "type") by reflexivity.
    rewrite !(get_default_cons_ne d "message" "type") by reflexivity.
    assert (E : forall t, t = "user" \/ t = "assistant" ->
                eq_str (get_default (("type", JStr t) :: d) "type" JNull) "user"
                || eq_str (get_default (("type", JStr t) :: d) "type" JNull) "assistant"
                = true) by (intros t [->| ->]; reflexivity).
    rewrite (E t1 H1), (E t2 H2). cbn [negb].
    destruct (truthy _); [reflexivity|].
    destruct (get_default d "message" (JObj [])); reflexivity.
Qed.

(** ** Noise *)

Lemma is_command_noise_spec (s : string) :
  is_command_noise (JStr s) = true
  <-> exists tag a b, In tag COMMAND_NOISE /\ s = (a ++ tag ++ b)%string.
Proof.
  unfold is_command_noise. rewrite existsb_exists. split.
  - intros (tag & Hin & Hc). apply contains_spec in Hc as (a & b & ->). eauto.
  - intros (tag & a & b & Hin & ->). exists tag. split; [assumption|].
    apply contains_spec. eauto.
Qed.

(** C6. [is_command_noise] holds of a text exactly when one of the five
    markers occurs in it. A record of role [user] whose content is the
    string [<command-name>run</command-name>] is skipped when filtering is
    enabled; when filtering is disabled and the record is otherwise
    acceptable it is converted and counted. *)
Theorem noise_filter (s : string) (first_ts : json)
    (d : list (string * json)) (st : state) :
  length COMMAND_NOISE = 5
  /\ (is_command_noise (JStr s) = true
      <-> exists tag a b, In tag COMMAND_NOISE /\ s = (a ++ tag ++ b)%string)
  /\ (eq_str (role_of d) "user" = true ->
      content_of d = JStr "<command-name>run</command-name>" ->
      convert_record true first_ts (JObj d) st = Ok (skip st)
      /\ (type_ok d = true ->
          truthy (get d "isMeta") = false ->
          encodable_str (get_default d "uuid" (JStr (uuid4 (rng st)))) = true ->
          (truthy (get d "parentUuid") = true ->
           encodable_str (get d "parentUuid") = true) ->
          exists st',
            convert_record false first_ts (JObj d) st = Ok st'
            /\ converted st' = S (converted st)
            /\ skipped st' = skipped st
            /\ exists m, out st' = out st ++ [m])).
Proof.
  split; [reflexivity|]. split; [apply is_command_noise_spec|].
  intros Hr Hc. split.
  - apply reject_raw_noise; [assumption | now rewrite Hc].
  - intros Hty Hmeta Hu Hp.
    unfold role_of, content_of in Hr, Hc.
    destruct (message_of d) as [| | | | | |msg] eqn:Hmsg; try discriminate Hr.
    destruct (write_message_ok first_ts d msg (get msg "role")
                [text_block (JStr "<command-name>run</command-name>")] st Hu Hp)
      as [st' Hw].
    exists st'. rewrite (convert_record_passes false first_ts d msg
      [text_block (JStr "<command-name>run</command-name>")] st);
      try assumption; try reflexivity.
    + split; [assumption|].
      destruct (write_message_counts _ _ _ _ _ _ _ Hw) as (? & ? & _ & ?). auto.
    + unfold role_ok. rewrite Hmsg, Hr. reflexivity.
    + rewrite Hc. reflexivity.
Qed.

(** ** Counters *)


(** ** Empty content *)


(** ** Output records *)

Lemma oc_message_fields (short : string) (ps raw_ts role : json)
    (norm : list json) (msg : list (string * json)) :
  let m := oc_message short ps raw_ts role norm msg in
  field m "type" = JStr "message"
  /\ field m "id" = JStr short
  /\ field m "parentId" = ps
  /\ field m "timestamp" = raw_ts
  /\ field (field m "message") "role" = role
  /\ field (field m "message") "content" = JArr norm
  /\ field (field m "message") "timestamp" = JInt (parse_ts_ms raw_ts).
Proof.
  unfold oc_message. cbn [field get get_default lookup_key String.eqb Ascii.eqb Bool.eqb].
  repeat split;
    destruct (eq_str role "assistant"), (truthy (get msg "model")),
      (truthy (get msg "id")); reflexivity.
Qed.

(** What [convert] returns, in terms of the detector and of the loop. *)
Lemma convert_inv (input : list string) (session_id cwd : string)
    (filter_commands : bool) (r : conversion) :
  convert input session_id cwd filter_commands = Ok r ->
  exists model0 provider change_id st,
    detect_model input = Ok (firstTimestamp r, model0)
    /\ short_id (session_id ++ "_model") = Ok change_id
    /\ convert_lines filter_commands (firstTimestamp r) input init_state = Ok st
    /\ output r
       = session_record session_id cwd (firstTimestamp r) provider (modelId r)
         :: model_change_record change_id (firstTimestamp r) provider (modelId r)
         :: out st
    /\ convertedCount r = converted st
    /\ skippedCount r = skipped st
    /\ errorCount r = errors st.
Proof.
  unfold convert.
  destruct (detect_model input) as [[first_ts model0]|e]; cbn [rbind]; [|discriminate].
  destruct (has_slash model0) as [slash|e]; cbn [rbind]; [|discriminate].
  destruct (if slash then split_model model0 else Ok (JStr "anthropic", model0))
    as [[provider model_id]|e]; cbn [rbind]; [|discriminate].
  destruct (short_id _) as [change_id|e] eqn:Eid; cbn [rbind]; [|discriminate].
  destruct (convert_lines _ _ _ _) as [st|e] eqn:E; cbn [rbind]; [|discriminate].
  intros [= <-]. cbn. exists model0, provider, change_id, st. auto 10.
Qed.

(** ** Parent linkage *)


(** ** Records without a timestamp *)

(** C10. In a run that returns, an accepted record without a [timestamp]
    field is written with the timestamp of the session header as its outer
    timestamp and with the epoch milliseconds parsed from that same value as
    its inner timestamp. *)
Theorem missing_timestamp_defaults (input : list string) (session_id cwd : string)
    (filter_commands : bool) (l1 l2 : list string) (line : string)
    (d : list (string * json)) (r : conversion) :
  convert input session_id cwd filter_commands = Ok r ->
  input = l1 ++ line :: l2 ->
  line_record loads line (JObj d) ->
  accepted filter_commands d ->
  lookup_key d "timestamp" = None ->
  exists session change st1 m post,
    convert_lines filter_commands (firstTimestamp r) l1 init_state = Ok st1
    /\ output r = session :: change :: out st1 ++ m :: post
    /\ field session "type" = JStr "session"
    /\ field session "timestamp" = firstTimestamp r
    /\ field m "type" = JStr "message"
    /\ field m "timestamp" = firstTimestamp r
    /\ field (field m "message") "timestamp"
       = JInt (parse_ts_ms (firstTimestamp r)).
Proof.
  intros Hrun -> Hline Hacc Hts.
  apply convert_inv in Hrun as (model0 & provider & change_id & st & _ & _ & Hloop & Hout & _).
  apply convert_lines_split in Hloop
    as (st1 & st2 & pre & post & H1 & Hm1 & _ & Hstep & _ & _ & Hpost);
    [|apply memo_ok_empty].
  apply (accepted_line_inv _ _ _ _ _ d Hm1 Hline Hacc) in Hstep
    as (msg & norm & u & h & ps & _ & _ & _ & _ & _ & Hstep).
  assert (Eraw : get_default d "timestamp" (firstTimestamp r) = firstTimestamp r)
    by (unfold get_default; now rewrite Hts).
  rewrite Eraw in Hstep.
  eexists _, _, st1, _, post. split; [exact H1|]. split.
  - rewrite Hout, Hpost, Hstep, <- app_assoc. reflexivity.
  - pose proof (oc_message_fields h ps (firstTimestamp r)
                  (get msg "role") norm msg) as (-> & _ & _ & -> & _ & _ & ->).
    repeat split; reflexivity.
Qed.

(** The two header lines of every run that returns: a session record, then
    a model_change record, both with the timestamp that [detect_model]
    found. *)
Lemma header_records (input : list string) (session_id cwd : string)
    (filter_commands : bool) (r : conversion) :
  convert input session_id cwd filter_commands = Ok r ->
  exists session change rest,
    output r = session :: change :: rest
    /\ field session "type" = JStr "session"
    /\ field change "type" = JStr "model_change"
    /\ field session "timestamp" = firstTimestamp r
    /\ field change "timestamp" = firstTimestamp r
    /\ field change "parentId" = JNull.
Proof.
  intros H. apply convert_inv in H as (model0 & provider & change_id & st & _ & _ & _ & -> & _).
  eexists _, _, _. split; [reflexivity|]. repeat split; reflexivity.
Qed.

End Converter.

(** * A concrete session *)

(** The records of a small session. [loads] parses the named lines of this
    session and fails on every other line; the clock, the random
    identifiers and the timestamp parser are fixed. *)
Module Demo.

Definition user_hello : list (string * json) :=
  [("type", JStr "user");
   ("message", JObj [("role", JStr "user"); ("content", JStr "hello")]);
   ("uuid", JStr "u1");
   ("timestamp", JStr "2024-01-01T00:00:00Z")].

Definition assistant_hi : list (string * json) :=
  [("type", JStr "assistant");
   ("message", JObj [("role", JStr "assistant");
                     ("content", JArr [JObj [("type", JStr "text"); ("text", JStr "hi")]]);
                     ("model", JStr "anthropic/claude-3")]);
   ("uuid", JStr "u2");
   ("parentUuid", JStr "u1");
   ("timestamp", JStr "2024-01-01T00:00:01Z")].

(** [type] is [user], [message.role] is [assistant]. *)
Definition mismatch : list (string * json) :=
  [("type", JStr "user");
   ("message", JObj [("role", JStr "assistant"); ("content", JStr "hi")]);
   ("uuid", JStr "u3")].

Definition noise : list (string * json) :=
  [("type", JStr "user");
   ("message", JObj [("role", JStr "user");
                     ("content", JStr "<command-name>run</command-name>")]);
   ("uuid", JStr "u4")].

Definition blank : list (string * json) :=
  [("type", JStr "user");
   ("message", JObj [("role", JStr "user"); ("content", JStr "   ")]);
   ("uuid", JStr "u5")].

Definition no_timestamp : list (string * json) :=
  [("type", JStr "user");
   ("message", JObj [("role", JStr "user"); ("content", JStr "later")]);
   ("uuid", JStr "u6");
   ("parentUuid", JStr "u2")].

Definition system : list (string * json) :=
  [("type", JStr "system"); ("uuid", JStr "u7")].

Definition bad_role : list (string * json) :=
  [("type", JStr "user");
   ("message", JObj [("role", JStr "tool"); ("content", JStr "x")]);
   ("uuid", JStr "u8")].

(** An assistant record that announces a model and has no timestamp. *)
Definition model_first : list (string * json) :=
  [("type", JStr "assistant");
   ("message", JObj [("role", JStr "assistant"); ("content", JStr "hi");
                     ("model", JStr "claude-3")]);
   ("uuid", JStr "u0")].

Definition table : list (string * json) :=
  [("user_hello", JObj user_hello);
   ("assistant_hi", JObj assistant_hi);
   ("mismatch", JObj mismatch);
   ("noise", JObj noise);
   ("blank", JObj blank);
   ("no_timestamp", JObj no_timestamp);
   ("system", JObj system);
   ("bad_role", JObj bad_role);
   ("model_first", JObj model_first)].

Definition loads (line : string) : option json := lookup_key table line.

Definition now : string := "2026-01-01T00:00:00+00:00".

Definition uuid4 (n : nat) : string :=
  string_of_list_ascii (repeat "f"%char (S n)).

Definition fromisoformat_ms (s : string) : option Z :=
  if String.eqb s "2024-01-01T00:00:00+00:00" then Some 1704067200000%Z
  else if String.eqb s "2024-01-01T00:00:01+00:00" then Some 1704067201000%Z
  else if String.eqb s "2026-01-01T00:00:00+00:00" then Some 1767225600000%Z
  else None.

(** No model identifier of this session is formatted from a value that is
    not a string. *)
Definition py_str (v : json) : string := "".

Definition run (input : list string) (filter_commands : bool) : result conversion :=
  convert loads now uuid4 fromisoformat_ms py_str input "sess" "/home/user"
    filter_commands.

(** The value of a computation that returned. *)
Definition returned {A : Type} (d : A) (c : result A) : A :=
  match c with Ok a => a | Raise _ => d end.

Definition empty_conversion : conversion :=
  mkConversion [] 0 0 0 JNull JNull.

End Demo.

Example demo_scenario :
  exists r, Demo.run ["user_hello"; "assistant_hi"] true = Ok r
            /\ convertedCount r = 2 /\ skippedCount r = 0 /\ errorCount r = 0
            /\ length (output r) = 4
            /\ modelId r = JStr "claude-3"
            /\ field (nth 1 (output r) JNull) "provider" = JStr "anthropic".
Proof. eexists. split; [vm_compute; reflexivity|]. vm_compute. auto 10. Qed.

Lemma demo_accepted (filter_commands : bool) (d msg : list (string * json))
    (norm : list json) :
  type_ok d = true ->
  truthy (get d "isMeta") = false ->
  message_of d = JObj msg ->
  role_ok d = true ->
  filter_commands && eq_str (get msg "role") "user" && is_command_noise (get msg "content")
    = false ->
  normalize_content (get msg "content") = Ok (Some norm) ->
  text_only_noise filter_commands (get msg "role") norm = Ok false ->
  accepted Demo.uuid4 Demo.fromisoformat_ms filter_commands d.
Proof.
  intros H1 H2 H3 H4 H5 H6 H7 first_ts st.
  rewrite (convert_record_passes _ _ _ _ _ _ _ _ H1 H2 H3 H4 H5 H6 H7).
  apply write_message_not_skip.
Qed.



Lemma no_timestamp_accepted :
  accepted Demo.uuid4 Demo.fromisoformat_ms true Demo.no_timestamp.
Proof.
  apply (demo_accepted true Demo.no_timestamp
           [("role", JStr "user"); ("content", JStr "later")]
           [text_block (JStr "later")]); reflexivity.
Qed.

(** ** The theorems at the concrete session *)

Lemma role_check_rejects_witness :
  convert_record Demo.uuid4 Demo.fromisoformat_ms true (JStr Demo.now)
    (JObj Demo.bad_role) init_state = Ok (skip init_state)
  /\ convert_record Demo.uuid4 Demo.fromisoformat_ms true (JStr Demo.now)
       (JObj (("type", JStr "user") :: Demo.system)) init_state
     = convert_record Demo.uuid4 Demo.fromisoformat_ms true (JStr Demo.now)
         (JObj (("type", JStr "assistant") :: Demo.system)) init_state.
Proof.
  split.
  - apply (proj1 (role_check_rejects Demo.uuid4 Demo.fromisoformat_ms true
                    (JStr Demo.now) Demo.bad_role init_state "user" "user")).
    right. reflexivity.
  - apply (proj2 (role_check_rejects Demo.uuid4 Demo.fromisoformat_ms true
                    (JStr Demo.now) Demo.system init_state "user" "assistant")).
    + left. reflexivity.
    + right. reflexivity.
Defined.

(** C1, as stated, fails: a record of type [user] whose message has role
    [assistant] is not skipped; it is converted, with role [assistant]. *)
Lemma role_mismatch_is_converted :
  get Demo.mismatch "type" = JStr "user"
  /\ role_of Demo.mismatch = JStr "assistant"
  /\ convert_record Demo.uuid4 Demo.fromisoformat_ms true (JStr Demo.now)
       (JObj Demo.mismatch) init_state <> Ok (skip init_state)
  /\ exists r, Demo.run ["mismatch"] true = Ok r
               /\ convertedCount r = 1
               /\ skippedCount r = 0
               /\ length (output r) = 3
               /\ field (field (nth 2 (output r) JNull) "message") "role"
                  = JStr "assistant".
Proof.
  split; [reflexivity|]. split; [reflexivity|]. split.
  - vm_compute. discriminate.
  - eexists. split; [vm_compute; reflexivity|]. vm_compute. auto.
Qed.

Lemma short_id_pure_8_hex_witness :
  exists h,
    short_id "u1" = Ok h
    /\ String.length h = 8
    /\ forallb lower_hex (list_ascii_of_string h) = true
    /\ exists st',
         get_short (JStr "u1")
           (get_short_calls ["u2"; "u1"; lone_surrogate; "u3"] init_state)
         = Ok (h, st').
Proof.
  exact (short_id_pure_8_hex "u1" ["u2"; "u1"; lone_surrogate; "u3"]).
Defined.

Lemma noise_filter_witness :
  is_command_noise (JStr "x<command-args>y") = true
  /\ convert_record Demo.uuid4 Demo.fromisoformat_ms true (JStr Demo.now)
       (JObj Demo.noise) init_state = Ok (skip init_state)
  /\ exists st',
       convert_record Demo.uuid4 Demo.fromisoformat_ms false (JStr Demo.now)
         (JObj Demo.noise) init_state = Ok st'
       /\ converted st' = 1 /\ skipped st' = 0
       /\ exists m, out st' = [] ++ [m].
Proof.
  destruct (noise_filter Demo.uuid4 Demo.fromisoformat_ms "x<command-args>y"
              (JStr Demo.now) Demo.noise init_state) as (_ & Hiff & Hrec).
  split.
  - apply Hiff. exists "<command-args>", "x", "y". split; [|reflexivity].
    simpl. tauto.
  - destruct Hrec as [Hon Hoff]; [reflexivity | reflexivity |].
    split; [exact Hon|].
    apply Hoff; [reflexivity | reflexivity | reflexivity |].
    intros H. discriminate H.
Defined.




Lemma missing_timestamp_defaults_witness :
  exists session change st1 m post,
    convert_lines Demo.loads Demo.uuid4 Demo.fromisoformat_ms true
      (JStr "2024-01-01T00:00:00Z") ["user_hello"; "assistant_hi"] init_state
    = Ok st1
    /\ output (Demo.returned Demo.empty_conversion
                 (Demo.run ["user_hello"; "assistant_hi"; "no_timestamp"] true))
       = session :: change :: out st1 ++ m :: post
    /\ field session "type" = JStr "session"
    /\ field session "timestamp" = JStr "2024-01-01T00:00:00Z"
    /\ field m "type" = JStr "message"
    /\ field m "timestamp" = JStr "2024-01-01T00:00:00Z"
    /\ field (field m "message") "timestamp" = JInt 1704067200000.
Proof.
  apply (missing_timestamp_defaults Demo.loads Demo.now Demo.uuid4
           Demo.fromisoformat_ms Demo.py_str
           ["user_hello"; "assistant_hi"; "no_timestamp"] "sess" "/home/user" true
           ["user_hello"; "assistant_hi"] [] "no_timestamp" Demo.no_timestamp
           (Demo.returned Demo.empty_conversion
              (Demo.run ["user_hello"; "assistant_hi"; "no_timestamp"] true))).
  - vm_compute. reflexivity.
  - reflexivity.
  - split; reflexivity.
  - exact no_timestamp_accepted.
  - reflexivity.
Defined.

(** C3 at a concrete input. The first line is an assistant record that
    announces a model and has no timestamp; the second line carries the
    timestamp [2024-01-01T00:00:00Z]. The scan of [detect_model] ends at the
    first line, so both header records carry the current time, although the
    input holds a timestamp, which the message written for the second line
    shows. *)
Theorem header_timestamp_stops_at_model :
  exists r, Demo.run ["model_first"; "user_hello"] true = Ok r
            /\ field (nth 0 (output r) JNull) "type" = JStr "session"
            /\ field (nth 1 (output r) JNull) "type" = JStr "model_change"
            /\ firstTimestamp r = JStr Demo.now
            /\ field (nth 0 (output r) JNull) "timestamp" = JStr Demo.now
            /\ field (nth 1 (output r) JNull) "timestamp" = JStr Demo.now
            /\ field (nth 3 (output r) JNull) "timestamp"
               = JStr "2024-01-01T00:00:00Z"
            /\ get Demo.user_hello "timestamp" = JStr "2024-01-01T00:00:00Z".
Proof. eexists. split; [vm_compute; reflexivity|]. vm_compute. auto 10. Qed.

(** * Further properties of the normaliser *)

(** A block as [normalize_content] leaves it: an object with a [type]
    field; a block of type [text] has exactly its type and a string text
    that is not blank. *)
Definition normalized_block (b : json) : bool :=
  match b with
  | JObj o =>
      match lookup_key o "type" with
      | None => false
      | Some t =>
          if eq_str t "text" then
            match o with
            | [(k1, _); (k2, JStr s)] =>
                String.eqb k1 "type" && String.eqb k2 "text"
                && negb (is_empty (Py.strip s))
            | _ => false
            end
          else true
      end
  | _ => false
  end.

Lemma nested_image_idem (b : json) : nested_image (nested_image b) = nested_image b.
Proof.
  destruct b as [| | | | | |n]; try reflexivity.
  cbn [nested_image]. destruct (eq_str (get n "type") "text") eqn:E.
  - reflexivity.
  - cbn [nested_image]. now rewrite E.
Qed.

Lemma nested_image_dict (b : json) :
  isinstance_dict b = true -> isinstance_dict (nested_image b) = true.
Proof.
  destruct b as [| | | | | |n]; try discriminate. intros _.
  unfold nested_image. now destruct (eq_str _ _).
Qed.

Lemma mapM_nested_inv (l l' : list json) :
  mapM normalize_nested l = Ok l' ->
  forallb isinstance_dict l = true /\ l' = map nested_image l.
Proof.
  intros H. destruct (forallb isinstance_dict l) eqn:E.
  - rewrite (mapM_nested_ok _ E) in H. now injection H as <-.
  - rewrite (mapM_nested_raises _ E) in H. discriminate H.
Qed.

(** The outcomes of the loop body on an object, branch by branch. *)
Inductive block_outcome (o : list (string * json)) : option json -> Prop :=
| outcome_blank (s : string) :
    get_default o "type" (JStr "text") = JStr "text" ->
    get_default o "text" (JStr "") = JStr s ->
    is_empty (Py.strip s) = true ->
    block_outcome o None
| outcome_text (s : string) :
    get_default o "type" (JStr "text") = JStr "text" ->
    get_default o "text" (JStr "") = JStr s ->
    is_empty (Py.strip s) = false ->
    block_outcome o (Some (text_block (JStr s)))
| outcome_thinking :
    get_default o "type" (JStr "text") = JStr "thinking" ->
    block_outcome o
      (Some (JObj [("type", JStr "thinking");
                   ("thinking", get_default o "thinking" (JStr ""));
                   ("signature", get_default o "signature" (JStr ""))]))
| outcome_tool_use :
    get_default o "type" (JStr "text") = JStr "tool_use" ->
    block_outcome o
      (Some (JObj [("type", JStr "tool_use");
                   ("id", get_default o "id" (JStr ""));
                   ("name", get_default o "name" (JStr ""));
                   ("input", get_default o "input" (JObj []))]))
| outcome_tool_result (c : json) :
    get_default o "type" (JStr "text") = JStr "tool_result" ->
    truthy c = true ->
    (forall l, c = JArr l ->
       forallb isinstance_dict l = true /\ map nested_image l = l) ->
    (forall s, c <> JStr s) ->
    block_outcome o
      (Some (JObj [("type", JStr "tool_result");
                   ("tool_use_id", get_default o "tool_use_id" (JStr ""));
                   ("content", c)]))
| outcome_other :
    lookup_key o "type" <> None ->
    eq_str (get o "type") "text" = false ->
    eq_str (get o "type") "thinking" = false ->
    eq_str (get o "type") "tool_use" = false ->
    eq_str (get o "type") "tool_result" = false ->
    block_outcome o (Some (JObj o)).

Lemma eq_str_true (v : json) (s : string) : eq_str v s = true -> v = JStr s.
Proof.
  destruct v; try discriminate. simpl. now intros ->%String.eqb_eq.
Qed.

Lemma normalize_block_outcome (o : list (string * json)) (r : option json) :
  normalize_block (JObj o) = Ok r -> block_outcome o r.
Proof.
  unfold normalize_block. cbn [py_get rbind].
  destruct (eq_str (get_default o "type" (JStr "text")) "text") eqn:Et.
  { apply eq_str_true in Et.
    destruct (get_default o "text" (JStr "")) as [| | | |s| |] eqn:Ex;
      try discriminate.
    cbn [py_strip rbind]. destruct (is_empty (Py.strip s)) eqn:Es; intros [= <-].
    - now apply (outcome_blank o s).
    - now apply (outcome_text o s). }
  destruct (eq_str (get_default o "type" (JStr "text")) "thinking") eqn:Eh.
  { apply eq_str_true in Eh. intros [= <-]. now apply outcome_thinking. }
  destruct (eq_str (get_default o "type" (JStr "text")) "tool_use") eqn:Eu.
  { apply eq_str_true in Eu. intros [= <-]. now apply outcome_tool_use. }
  destruct (eq_str (get_default o "type" (JStr "text")) "tool_result") eqn:Er.
  - apply eq_str_true in Er.
    set (c := get_default o "content" JNull).
    destruct (truthy c) eqn:Ec.
    + destruct c as [| | | |s|l|d] eqn:Hc; try discriminate Ec;
        cbn [rbind]; try (intros [= <-]; apply outcome_tool_result;
                          [assumption | assumption | intros ? [=] | intros ? [=]]).
      * intros [= <-]. apply outcome_tool_result;
          [assumption | reflexivity | | intros ? [=]].
        intros ? [= <-]. split; reflexivity.
      * destruct (mapM normalize_nested l) as [l'|e] eqn:Em; cbn [rbind];
          [|discriminate].
        intros [= <-]. apply mapM_nested_inv in Em as [Hd ->].
        apply outcome_tool_result; [assumption | | | intros ? [=]].
        -- destruct l; [discriminate Ec | reflexivity].
        -- intros ? [= <-]. split.
           ++ clear -Hd. induction l as [|b l IH]; [reflexivity|].
              cbn [map forallb] in *. apply andb_prop in Hd as [Hb Hl].
              now rewrite (nested_image_dict b Hb), IH.
           ++ rewrite map_map. apply map_ext. intros. apply nested_image_idem.
    + cbn [rbind]. intros [= <-]. apply outcome_tool_result;
        [assumption | reflexivity | | intros ? [=]].
      intros ? [= <-]. split; reflexivity.
  - intros [= <-]. unfold get.
    assert (Hk : lookup_key o "type" <> None).
    { intros Hn. unfold get_default in Et. rewrite Hn in Et. discriminate Et. }
    assert (Eg : get_default o "type" JNull = get_default o "type" (JStr "text")).
    { unfold get_default. destruct (lookup_key o "type"); [reflexivity | congruence]. }
    apply outcome_other; unfold get; rewrite ?Eg; assumption.
Qed.

Lemma outcome_fixed (o : list (string * json)) (b : json) :
  block_outcome o (Some b) -> normalize_block b = Ok (Some b).
Proof.
  inversion 1 as [ | s Ht Hx Hs | Ht | Ht | c Ht Hc Hl Hs
                 | Hk Ht Hh Hu Hr ]; subst.
  - unfold normalize_block, text_block.
    cbn [py_get rbind get_default lookup_key String.eqb Ascii.eqb Bool.eqb eq_str
         py_strip].
    now rewrite Hs.
  - reflexivity.
  - reflexivity.
  - unfold normalize_block.
    cbn [py_get rbind get_default lookup_key String.eqb Ascii.eqb Bool.eqb eq_str].
    rewrite Hc. destruct c as [| | | |s|l|d]; try reflexivity.
    + now destruct (Hs s).
    + destruct (Hl l eq_refl) as [Hd Hm].
      rewrite (mapM_nested_ok _ Hd), Hm. reflexivity.
  - unfold normalize_block. cbn [py_get rbind].
    assert (Eg : get_default o "type" (JStr "text") = get o "type").
    { unfold get, get_default. destruct (lookup_key o "type"); [reflexivity | congruence]. }
    now rewrite Eg, Ht, Hh, Hu, Hr.
Qed.

Lemma outcome_normalized (o : list (string * json)) (b : json) :
  block_outcome o (Some b) -> normalized_block b = true.
Proof.
  inversion 1 as [ | s Ht Hx Hs | Ht | Ht | c Ht Hc Hl Hs
                 | Hk Ht Hh Hu Hr ]; subst.
  - unfold normalized_block, text_block.
    cbn [lookup_key String.eqb Ascii.eqb Bool.eqb eq_str andb]. now rewrite Hs.
  - reflexivity.
  - reflexivity.
  - reflexivity.
  - unfold normalized_block. unfold get, get_default in Ht.
    destruct (lookup_key o "type"); [now rewrite Ht | congruence].
Qed.

Lemma normalize_block_Some (b b' : json) :
  normalize_block b = Ok (Some b') ->
  normalize_block b' = Ok (Some b') /\ normalized_block b' = true.
Proof.
  destruct b as [| | | | | |o]; try discriminate.
  intros H%normalize_block_outcome.
  split; [now apply (outcome_fixed o) | now apply (outcome_normalized o)].
Qed.

Lemma normalize_blocks_Forall (P : json -> Prop) (l acc out : list json) :
  (forall b b', normalize_block b = Ok (Some b') -> P b') ->
  List.Forall P acc ->
  normalize_blocks l acc = Ok out ->
  List.Forall P out /\ length out <= length acc + length l.
Proof.
  intros HP. revert acc. induction l as [|b l IH]; intros acc Hacc; simpl.
  - intros [= <-]. split; [assumption | lia].
  - destruct (normalize_block b) as [[b'|]|e] eqn:E; cbn [rbind]; [| |discriminate].
    + intros H. apply IH in H as [HF Hlen].
      * split; [assumption|]. rewrite length_app in Hlen. simpl in Hlen. lia.
      * apply List.Forall_app. split; [assumption|].
        constructor; [now apply (HP b) | constructor].
    + intros H. apply IH in H as [HF Hlen]; [|assumption].
      split; [assumption | lia].
Qed.

Lemma normalize_blocks_fixed (out acc : list json) :
  List.Forall (fun b => normalize_block b = Ok (Some b)) out ->
  normalize_blocks out acc = Ok (acc ++ out).
Proof.
  intros H. revert acc. induction H as [|b out Hb _ IH]; intros acc; simpl.
  - now rewrite app_nil_r.
  - rewrite Hb. cbn [rbind]. rewrite IH, <- app_assoc. reflexivity.
Qed.

Lemma normalize_content_inv (content : json) (out : list json) :
  normalize_content content = Ok (Some out) ->
  out <> []
  /\ ((exists s, content = JStr s /\ is_empty (Py.strip s) = false
                 /\ out = [text_block (JStr s)])
      \/ exists l, content = JArr l /\ normalize_blocks l [] = Ok out).
Proof.
  destruct content as [| | | |s|l|]; simpl; try discriminate.
  - destruct (is_empty (Py.strip s)) eqn:E; [discriminate|].
    intros [= <-]. split; [discriminate|]. left. eauto.
  - destruct (normalize_blocks l []) as [blocks|e] eqn:E; cbn [rbind]; [|discriminate].
    destruct blocks; [discriminate|]. intros [= <-].
    split; [discriminate|]. right. eauto.
Qed.

(** Normalising is idempotent: the blocks that [normalize_content] returns
    are normalised to themselves. *)
Theorem normalize_content_idempotent (content : json) (out : list json) :
  normalize_content content = Ok (Some out) ->
  normalize_content (JArr out) = Ok (Some out).
Proof.
  intros H. apply normalize_content_inv in H as [Hne [(s & -> & Hs & ->)|(l & -> & Hl)]].
  - unfold normalize_content, normalize_blocks, normalize_block, text_block.
    cbn [py_get rbind get_default lookup_key String.eqb Ascii.eqb Bool.eqb eq_str
         py_strip].
    now rewrite Hs.
  - apply (normalize_blocks_Forall
             (fun b => normalize_block b = Ok (Some b))) in Hl as [HF _];
      [| intros b b' Hb; now apply normalize_block_Some in Hb | constructor].
    unfold normalize_content. rewrite (normalize_blocks_fixed out [] HF).
    cbn [rbind app]. destruct out; [congruence | reflexivity].
Qed.

Lemma normalize_content_idempotent_witness :
  normalize_content
    (JArr [JObj [("type", JStr "text"); ("text", JStr "a")];
           JObj [("type", JStr "tool_result"); ("tool_use_id", JStr "t1");
                 ("content", JArr [JObj [("type", JStr "text"); ("text", JStr "o")]])];
           JObj [("type", JStr "thinking"); ("thinking", JStr "hm");
                 ("signature", JStr "")]])
  = Ok (Some
          [JObj [("type", JStr "text"); ("text", JStr "a")];
           JObj [("type", JStr "tool_result"); ("tool_use_id", JStr "t1");
                 ("content", JArr [JObj [("type", JStr "text"); ("text", JStr "o")]])];
           JObj [("type", JStr "thinking"); ("thinking", JStr "hm");
                 ("signature", JStr "")]]).
Proof.
  apply (normalize_content_idempotent
           (JArr [JObj [("text", JStr "a"); ("cache", JBool true)];
                  JObj [("type", JStr "text"); ("text", JStr " ")];
                  JObj [("type", JStr "tool_result"); ("tool_use_id", JStr "t1");
                        ("content", JStr "o")];
                  JObj [("type", JStr "thinking"); ("thinking", JStr "hm")]])).
  reflexivity.
Defined.

(** What [normalize_content] returns is never an empty list; every block of
    it is an object with a [type] field, a text block being exactly a type
    and a text that is not blank; and a list content never grows. *)
Theorem normalize_content_shape (content : json) (out : list json) :
  normalize_content content = Ok (Some out) ->
  out <> []
  /\ forallb normalized_block out = true
  /\ (forall l, content = JArr l -> length out <= length l).
Proof.
  intros H. apply normalize_content_inv in H as [Hne [(s & -> & Hs & ->)|(l & -> & Hl)]].
  - split; [assumption|]. split; [|intros ? [=]].
    unfold normalized_block, text_block.
    cbn [forallb lookup_key String.eqb Ascii.eqb Bool.eqb eq_str andb].
    now rewrite Hs.
  - apply (normalize_blocks_Forall (fun b => normalized_block b = true))
      in Hl as [HF Hlen];
      [| intros b b' Hb; now apply normalize_block_Some in Hb | constructor].
    split; [assumption|]. split.
    + apply forallb_forall. now apply List.Forall_forall.
    + intros ? [= <-]. simpl in Hlen. lia.
Qed.

Lemma normalize_content_shape_witness :
  [text_block (JStr "a"); JObj [("type", JStr "image"); ("data", JStr "x")]] <> []
  /\ forallb normalized_block
       [text_block (JStr "a"); JObj [("type", JStr "image"); ("data", JStr "x")]]
     = true
  /\ (forall l,
        JArr [JObj [("text", JStr "a")]; JObj [("text", JStr "")];
              JObj [("type", JStr "image"); ("data", JStr "x")]] = JArr l ->
        length [text_block (JStr "a");
                JObj [("type", JStr "image"); ("data", JStr "x")]] <= length l).
Proof.
  apply (normalize_content_shape
           (JArr [JObj [("text", JStr "a")]; JObj [("text", JStr "")];
                  JObj [("type", JStr "image"); ("data", JStr "x")]])).
  reflexivity.
Defined.

Lemma normalize_content_normalized (content : json) (out : list json) :
  normalize_content content = Ok (Some out) ->
  forallb normalized_block out = true.
Proof.
  intros H. apply normalize_content_inv in H as [_ [(s & -> & Hs & ->)|(l & -> & Hl)]].
  - unfold normalized_block, text_block.
    cbn [forallb lookup_key String.eqb Ascii.eqb Bool.eqb eq_str andb].
    now rewrite Hs.
  - apply (normalize_blocks_Forall (fun b => normalized_block b = true))
      in Hl as [HF _];
      [| intros b b' Hb; now apply normalize_block_Some in Hb | constructor].
    apply forallb_forall. now apply List.Forall_forall.
Qed.

Lemma normalize_content_ok (content : json) :
  content_ok content = true -> exists r, normalize_content content = Ok r.
Proof.
  destruct content as [| | | |s|l|?]; simpl; eauto.
  - destruct (is_empty _); eauto.
  - intros Hl. destruct (normalize_blocks_ok l [] Hl) as [r ->]. simpl. eauto.
Qed.

(** * Further properties of the conversion *)

Lemma text_items_normalized (out : list json) :
  forallb normalized_block out = true ->
  exists items, text_items out = Ok items /\ forallb isinstance_str items = true.
Proof.
  induction out as [|b out IH]; cbn [forallb text_items]; [eauto|].
  intros [Hb Hout]%andb_prop. destruct (IH Hout) as (items & Hi & Hs).
  destruct b as [| | | | | |o]; try discriminate Hb.
  cbn [py_get rbind normalized_block] in *.
  unfold get_default at 1. destruct (lookup_key o "type") as [t|] eqn:Et;
    [|discriminate Hb].
  destruct (eq_str t "text") eqn:E; [|eauto].
  destruct o as [|[k1 v1] [|[k2 [| | | |s| |]] [|]]]; try discriminate Hb.
  apply andb_prop in Hb as [[Hk1%String.eqb_eq Hk2%String.eqb_eq]%andb_prop _].
  subst k1 k2. rewrite Hi. cbn. exists (JStr s :: items). split; [reflexivity|].
  cbn. exact Hs.
Qed.

Lemma py_join_strings (sep : string) (items : list json) :
  forallb isinstance_str items = true -> exists t, py_join sep items = Ok t.
Proof.
  induction items as [|x items IH]; cbn [forallb py_join]; [eauto|].
  intros [Hx Hitems]%andb_prop. destruct x; try discriminate Hx.
  destruct (IH Hitems) as [t Ht]. destruct items; [eauto|].
  rewrite Ht. cbn [rbind]. eauto.
Qed.

(** The second noise check never raises on what the normaliser returned. *)
Lemma text_only_noise_returns (filter_commands : bool) (role : json)
    (out : list json) :
  forallb normalized_block out = true ->
  exists b, text_only_noise filter_commands role out = Ok b.
Proof.
  intros H. unfold text_only_noise.
  destruct (filter_commands && eq_str role "user"); [|eauto].
  destruct (text_items_normalized out H) as (items & -> & Hs). cbn [rbind].
  destruct (py_join_strings " " items Hs) as [t ->]. cbn [rbind]. eauto.
Qed.

Section Pipeline.

Variable loads : string -> option json.
Variable now : string.
Variable uuid4 : nat -> string.
Variable fromisoformat_ms : string -> option Z.
Variable py_str : json -> string.

(** The loop body returns on every object whose content the normaliser
    accepts, whose [uuid] (the generated one when the key is missing) is a
    string without a lone surrogate, and whose [parentUuid] is such a string
    or is falsy: such a record is skipped or written, and never aborts the
    run. *)
Theorem convert_record_returns (filter_commands : bool) (first_ts : json)
    (d : list (string * json)) (st : state) :
  content_ok (content_of d) = true ->
  encodable_str (get_default d "uuid" (JStr (uuid4 (rng st)))) = true ->
  (truthy (get d "parentUuid") = true -> encodable_str (get d "parentUuid") = true) ->
  exists st',
    convert_record uuid4 fromisoformat_ms filter_commands first_ts (JObj d) st = Ok st'
    /\ (st' = skip st
        \/ (converted st' = S (converted st) /\ skipped st' = skipped st
            /\ errors st' = errors st /\ exists m, out st' = out st ++ [m])).
Proof.
  intros Hc Hu Hp. unfold convert_record, content_of, message_of in *.
  destruct (negb _); [eauto|].
  destruct (truthy (get d "isMeta")); [eauto|].
  destruct (get_default d "message" (JObj [])) as [| | | | | |msg]; eauto.
  destruct (negb _); [eauto|].
  destruct (_ && is_command_noise _); [eauto|].
  destruct (normalize_content_ok _ Hc) as [[norm|] Hn]; rewrite Hn; cbn [rbind];
    [|eauto].
  destruct (text_only_noise_returns filter_commands (get msg "role") norm
              (normalize_content_normalized _ _ Hn)) as [[|] ->]; cbn [rbind];
    [eauto|].
  destruct (write_message_ok uuid4 fromisoformat_ms first_ts d msg (get msg "role")
              norm st Hu Hp) as [st' Hw].
  exists st'. split; [exact Hw|]. right.
  now apply write_message_counts in Hw.
Qed.

(** Filtering only removes records: a record that is written with noise
    filtering enabled is written in the same way with filtering disabled. *)
Theorem filter_only_removes (first_ts : json) (d : list (string * json))
    (st st' : state) :
  convert_record uuid4 fromisoformat_ms true first_ts (JObj d) st = Ok st' ->
  st' <> skip st ->
  convert_record uuid4 fromisoformat_ms false first_ts (JObj d) st = Ok st'.
Proof.
  unfold convert_record.
  destruct (negb _); [intros [= <-]; congruence|].
  destruct (truthy (get d "isMeta")); [intros [= <-]; congruence|].
  destruct (get_default d "message" (JObj [])) as [| | | | | |msg];
    try (intros [= <-]; congruence).
  destruct (negb _); [intros [= <-]; congruence|].
  destruct (true && _ && _ && _); [intros [= <-]; congruence|].
  cbn [andb].
  destruct (normalize_content _) as [[norm|]|e]; cbn [rbind];
    [| intros [= <-]; congruence | discriminate].
  unfold text_only_noise at 2. cbn [andb rbind].
  destruct (text_only_noise true _ _) as [[|]|e]; cbn [rbind];
    [intros [= <-]; congruence | | discriminate].
  auto.
Qed.

(** The noise filter applies to user messages only: a record whose role is
    not [user] is treated alike whether filtering is enabled or not. *)
Theorem filter_spares_other_roles (first_ts : json) (d : list (string * json))
    (st : state) :
  eq_str (role_of d) "user" = false ->
  convert_record uuid4 fromisoformat_ms true first_ts (JObj d) st
  = convert_record uuid4 fromisoformat_ms false first_ts (JObj d) st.
Proof.
  unfold convert_record, role_of, message_of. intros Hr.
  destruct (negb _); [reflexivity|].
  destruct (truthy (get d "isMeta")); [reflexivity|].
  destruct (get_default d "message" (JObj [])) as [| | | | | |msg]; try reflexivity.
  destruct (negb _); [reflexivity|].
  unfold text_only_noise. rewrite Hr. reflexivity.
Qed.

(** ** Counters and output size *)

(** A line that is not blank. *)
Definition nonblank (line : string) : bool := negb (is_empty (Py.strip line)).

(** A line that is not blank and that [json.loads] rejects. *)
Definition unparsable (line : string) : bool :=
  nonblank line && match loads (Py.strip line) with None => true | Some _ => false end.

(** A line that is not blank and that [json.loads] accepts. *)
Definition parsable (line : string) : bool :=
  nonblank line && match loads (Py.strip line) with None => false | Some _ => true end.

Lemma convert_line_counts (filter_commands : bool) (first_ts : json)
    (st st' : state) (line : string) :
  convert_line loads uuid4 fromisoformat_ms filter_commands first_ts st line = Ok st' ->
  converted st' + skipped st'
    = converted st + skipped st + (if parsable line then 1 else 0)
  /\ errors st' = errors st + (if unparsable line then 1 else 0)
  /\ length (out st') + converted st = length (out st) + converted st'.
Proof.
  unfold convert_line, parsable, unparsable, nonblank.
  destruct (is_empty (Py.strip line)); cbn [negb andb].
  { intros [= <-]. lia. }
  destruct (loads (Py.strip line)) as [v|].
  2: { intros [= <-]. cbn. lia. }
  destruct v as [| | | | | |d]; try discriminate.
  intros H. apply convert_record_inv in H as [->|(msg & norm & _ & _ & _ & _ & H)].
  - cbn. lia.
  - apply write_message_counts in H as (Hc & Hs & He & m & Ho).
    rewrite Hc, Hs, He, Ho, length_app. cbn. lia.
Qed.

Lemma convert_lines_counts (filter_commands : bool) (first_ts : json)
    (lines : list string) (st st' : state) :
  convert_lines loads uuid4 fromisoformat_ms filter_commands first_ts lines st = Ok st' ->
  converted st' + skipped st'
    = converted st + skipped st + length (List.filter parsable lines)
  /\ errors st' = errors st + length (List.filter unparsable lines)
  /\ length (out st') + converted st = length (out st) + converted st'.
Proof.
  revert st. induction lines as [|line lines IH]; intros st; cbn [convert_lines].
  { intros [= <-]. cbn. lia. }
  destruct (convert_line _ _ _ _ _ _ _) as [st1|e] eqn:E; cbn [rbind]; [|discriminate].
  intros H. apply IH in H as (H1 & H2 & H3).
  apply convert_line_counts in E as (E1 & E2 & E3).
  revert E1 E2. cbn [List.filter].
  destruct (parsable line), (unparsable line); cbn [length]; intros;
    repeat split; lia.
Qed.

Lemma nonblank_split (lines : list string) :
  length (List.filter nonblank lines)
  = length (List.filter parsable lines) + length (List.filter unparsable lines).
Proof.
  induction lines as [|line lines IH]; [reflexivity|].
  cbn [List.filter].
  assert (Hp : parsable line = nonblank line
               && match loads (Py.strip line) with None => false | Some _ => true end)
    by reflexivity.
  assert (Hu : unparsable line = nonblank line
               && match loads (Py.strip line) with None => true | Some _ => false end)
    by reflexivity.
  rewrite Hp, Hu.
  destruct (nonblank line); cbn [andb]; [|exact IH].
  destruct (loads (Py.strip line)); cbn [length]; lia.
Qed.

(** In a run that returns, every line that is not blank is counted exactly
    once: the three counters add up to the number of such lines, and
    [errorCount] is the number of them that fail to parse. *)
Theorem counters_account_for_lines (input : list string) (session_id cwd : string)
    (filter_commands : bool) (r : conversion) :
  convert loads now uuid4 fromisoformat_ms py_str input session_id cwd filter_commands
    = Ok r ->
  convertedCount r + skippedCount r + errorCount r
    = length (List.filter nonblank input)
  /\ errorCount r = length (List.filter unparsable input).
Proof.
  intros H. apply convert_inv in H as (m & p & change_id & st & _ & _ & Hl & _ & -> & -> & ->).
  apply convert_lines_counts in Hl as (H1 & H2 & _). cbn in H1, H2.
  rewrite nonblank_split. lia.
Qed.

(** In a run that returns, the output file has the two header lines and one
    line per converted record. *)
Theorem output_size (input : list string) (session_id cwd : string)
    (filter_commands : bool) (r : conversion) :
  convert loads now uuid4 fromisoformat_ms py_str input session_id cwd filter_commands
    = Ok r ->
  length (output r) = 2 + convertedCount r.
Proof.
  intros H. apply convert_inv in H as (m & p & change_id & st & _ & _ & Hl & -> & -> & _).
  apply convert_lines_counts in Hl as (_ & _ & H3). cbn in H3 |- *. lia.
Qed.

(** ** Lines that hold no object *)

(** A line that parses to a JSON value that is not an object (a list, a
    number, a string, [true], [null]) is neither skipped nor counted as an
    error: [d.get] raises on it and the run does not return. *)
Theorem non_object_line_aborts (input l1 l2 : list string) (line : string)
    (v : json) (session_id cwd : string) (filter_commands : bool) (r : conversion) :
  input = l1 ++ line :: l2 ->
  line_record loads line v ->
  isinstance_dict v = false ->
  convert loads now uuid4 fromisoformat_ms py_str input session_id cwd filter_commands
    <> Ok r.
Proof.
  intros -> [Hne Hload] Hv H.
  apply convert_inv in H as (m & p & change_id & st & _ & _ & Hl & _).
  apply convert_lines_split in Hl as (st1 & st2 & _ & _ & _ & _ & _ & Hs & _);
    [|apply memo_ok_empty].
  unfold convert_line in Hs. rewrite Hne, Hload in Hs.
  destruct v; try discriminate Hs. discriminate Hv.
Qed.

(** ** The written message *)




(** ** The model detector *)

(** An assistant record that announces a model: the record at which the
    scan of [detect_model] ends. *)
Definition announces_model (d : json) : bool :=
  match d with
  | JObj o =>
      eq_str (get o "type") "assistant"
      && match get o "message" with
         | JObj m => truthy (get m "model")
         | _ => false
         end
  | _ => false
  end.

(** A line the scan passes over without finding anything: a blank line, a
    line that does not parse, or an object with a falsy timestamp that
    announces no model. *)
Definition uninformative (line : string) : Prop :=
  parsable line = false
  \/ exists o, loads (Py.strip line) = Some (JObj o)
               /\ truthy (get o "timestamp") = false
               /\ announces_model (JObj o) = false.

Lemma detect_scan_uninformative (line : string) (rest : list string)
    (first_ts : option json) :
  uninformative line ->
  detect_scan loads (line :: rest) first_ts = detect_scan loads rest first_ts.
Proof.
  intros [Hp|(o & Hl & Ht & Ha)]; cbn [detect_scan].
  - unfold parsable, nonblank in Hp.
    destruct (is_empty (Py.strip line)); [reflexivity|].
    destruct (loads (Py.strip line)); [discriminate Hp | reflexivity].
  - destruct (is_empty (Py.strip line)); [reflexivity|].
    rewrite Hl. cbn [py_get rbind]. fold (get o "timestamp"). rewrite Ht.
    fold (get o "type") (get o "message"). cbn [announces_model] in Ha.
    assert (E : match first_ts with
                | Some _ => first_ts
                | None => None
                end = first_ts) by now destruct first_ts.
    rewrite E.
    destruct (eq_str (get o "type") "assistant"); [|reflexivity].
    destruct (get o "message") as [| | | | | |m]; try reflexivity.
    cbn [andb isinstance_dict py_get rbind] in *. fold (get m "model").
    now rewrite Ha.
Qed.

Lemma detect_scan_sticky (lines : list string) (t : json)
    (first_ts model_id : option json) :
  detect_scan loads lines (Some t) = Ok (first_ts, model_id) -> first_ts = Some t.
Proof.
  induction lines as [|line lines IH]; cbn [detect_scan].
  - now intros [= <- _].
  - destruct (is_empty (Py.strip line)); [exact IH|].
    destruct (loads (Py.strip line)) as [d|]; [|exact IH].
    destruct d as [| | | | | |o]; try discriminate. cbn [py_get rbind].
    destruct (_ && _); [|exact IH].
    destruct (get_default o "message" JNull) as [| | | | | |m]; try discriminate.
    cbn [py_get rbind]. destruct (truthy _); [now intros [= <- _] | exact IH].
Qed.

Lemma detect_scan_stops (l1 l2 : list string) (line : string) (d : json)
    (first_ts : option json) :
  line_record loads line d ->
  announces_model d = true ->
  detect_scan loads (l1 ++ line :: l2) first_ts
  = detect_scan loads (l1 ++ [line]) first_ts.
Proof.
  intros [Hne Hl] Ha. revert first_ts.
  induction l1 as [|x l1 IH]; intros first_ts; cbn [app detect_scan].
  - rewrite Hne, Hl. destruct d as [| | | | | |o]; try discriminate Ha.
    cbn [py_get rbind announces_model] in *. unfold get in Ha.
    apply andb_prop in Ha as [Ht Hm]. rewrite Ht.
    destruct (get_default o "message" JNull) as [| | | | | |m]; try discriminate Hm.
    cbn [andb isinstance_dict py_get rbind]. unfold get in Hm. now rewrite Hm.
  - destruct (is_empty (Py.strip x)); [apply IH|].
    destruct (loads (Py.strip x)) as [v|]; [|apply IH].
    destruct (py_get v "timestamp" JNull); cbn [rbind]; [|reflexivity].
    destruct (py_get v "type" JNull); cbn [rbind]; [|reflexivity].
    destruct (py_get v "message" JNull) as [msg|]; cbn [rbind]; [|reflexivity].
    destruct (_ && _); [|apply IH].
    destruct (py_get msg "model" JNull) as [m|]; cbn [rbind]; [|reflexivity].
    destruct (truthy m); [reflexivity | apply IH].
Qed.

(** The scan ends at the first assistant record that announces a model:
    the lines after it have no influence on the detected model or
    timestamp. *)
Theorem detect_model_stops_at_model (l1 l2 : list string) (line : string) (d : json) :
  line_record loads line d ->
  announces_model d = true ->
  detect_model loads now (l1 ++ line :: l2) = detect_model loads now (l1 ++ [line]).
Proof.
  intros Hl Ha. unfold detect_model. now rewrite (detect_scan_stops l1 l2 line d).
Qed.

(** The detected timestamp is the first truthy one: when the lines before a
    record with a truthy timestamp are blank, unparsable, or objects with a
    falsy timestamp that announce no model, a scan that returns gives that
    record's timestamp, whatever follows. *)
Theorem detect_model_first_timestamp (l1 l2 : list string) (line : string)
    (o : list (string * json)) (ts model_id : json) :
  List.Forall uninformative l1 ->
  line_record loads line (JObj o) ->
  truthy (get o "timestamp") = true ->
  detect_model loads now (l1 ++ line :: l2) = Ok (ts, model_id) ->
  ts = get o "timestamp".
Proof.
  intros Hl1 [Hne Hl] Ht. unfold detect_model.
  assert (E : detect_scan loads (l1 ++ line :: l2) None
              = detect_scan loads (line :: l2) None).
  { induction Hl1 as [|x l1 Hx _ IH]; [reflexivity|].
    cbn [app]. now rewrite detect_scan_uninformative. }
  rewrite E. cbn [detect_scan]. rewrite Hne, Hl. cbn [py_get rbind].
  fold (get o "timestamp"). rewrite Ht.
  destruct (_ && _).
  - destruct (get_default o "message" JNull) as [| | | | | |m]; try discriminate.
    cbn [py_get rbind]. destruct (truthy (get_default m "model" JNull)).
    + cbn [rbind]. now intros [= <- _].
    + destruct (detect_scan loads l2 _) as [[ft mo]|e] eqn:Es; [|discriminate].
      apply detect_scan_sticky in Es as ->. cbn [rbind]. now intros [= <- _].
  - destruct (detect_scan loads l2 _) as [[ft mo]|e] eqn:Es; [|discriminate].
    apply detect_scan_sticky in Es as ->. cbn [rbind]. now intros [= <- _].
Qed.

(** ** Input without records *)




(** ** Provider and model *)

Lemma contains_slash_cons (c : ascii) (s : string) :
  Py.contains "/" (String c s)
  = if Ascii.eqb "/"%char c then true else Py.contains "/" s.
Proof.
  cbn [Py.contains]. unfold Py.starts_with at 1.
  cbn [list_ascii_of_string Py.strip_prefix].
  destruct (Ascii.eqb "/"%char c); reflexivity.
Qed.

Lemma split_slash_spec (s : string) :
  Py.contains "/" s = true ->
  exists a b, Py.split_slash s = (a, b)
              /\ s = (a ++ "/" ++ b)%string
              /\ Py.contains "/" a = false.
Proof.
  induction s as [|c s IH]; [discriminate|].
  rewrite contains_slash_cons. cbn [Py.split_slash].
  rewrite (Ascii.eqb_sym c "/"%char).
  destruct (Ascii.eqb_spec "/"%char c) as [<-|Hne].
  - intros _. exists "", s. auto.
  - intros H. destruct (IH H) as (a & b & -> & -> & Ha).
    exists (String c a), b. split; [reflexivity|]. split; [reflexivity|].
    rewrite contains_slash_cons. destruct (Ascii.eqb_spec "/"%char c); congruence.
Qed.

(** The header of a run whose detected model is a string [s]: the session
    record's [model] is provider, slash, model id. When [s] has a slash it is
    split at its first slash, so the session record carries [s] unchanged;
    otherwise the provider is [anthropic] and the model id is [s]. *)
Theorem header_model (input : list string) (session_id cwd : string)
    (filter_commands : bool) (r : conversion) (ts : json) (s : string) :
  convert loads now uuid4 fromisoformat_ms py_str input session_id cwd filter_commands
    = Ok r ->
  detect_model loads now input = Ok (ts, JStr s) ->
  exists p m,
    field (nth 1 (output r) JNull) "provider" = JStr p
    /\ field (nth 1 (output r) JNull) "modelId" = JStr m
    /\ modelId r = JStr m
    /\ field (nth 0 (output r) JNull) "model" = JStr (p ++ "/" ++ m)%string
    /\ (if Py.contains "/" s
        then s = (p ++ "/" ++ m)%string /\ Py.contains "/" p = false
        else p = "anthropic" /\ m = s).
Proof.
  unfold convert. intros H Hd. rewrite Hd in H. cbn [rbind has_slash] in H.
  destruct (Py.contains "/" s) eqn:Ec.
  - destruct (split_slash_spec s Ec) as (a & b & Hs & Heq & Ha).
    cbn [split_model] in H. rewrite Hs in H. cbn [rbind] in H.
    destruct (short_id _) as [change_id|e]; [|discriminate H]. cbn [rbind] in H.
    destruct (convert_lines _ _ _ _ _ _ _) as [st|e]; [|discriminate H].
    cbn [rbind] in H. injection H as <-. exists a, b. cbn. auto 10.
  - cbn [rbind] in H.
    destruct (short_id _) as [change_id|e]; [|discriminate H]. cbn [rbind] in H.
    destruct (convert_lines _ _ _ _ _ _ _) as [st|e]; [|discriminate H].
    cbn [rbind] in H. injection H as <-. exists "anthropic", s. cbn. auto 10.
Qed.

(** ** Timestamps *)

Lemma replace_Z_idem (s : string) : Py.replace_Z (Py.replace_Z s) = Py.replace_Z s.
Proof.
  induction s as [|c s IH]; [reflexivity|]. cbn [Py.replace_Z].
  destruct (Ascii.eqb_spec c "Z"%char) as [->|Hne].
  - change (Py.replace_Z ("+00:00" ++ Py.replace_Z s)%string)
      with ("+00:00" ++ Py.replace_Z (Py.replace_Z s))%string.
    now rewrite IH.
  - cbn [Py.replace_Z]. destruct (Ascii.eqb_spec c "Z"%char); [congruence|].
    now rewrite IH.
Qed.

(** A timestamp written with [Z] and the same timestamp written with
    [+00:00] give the same milliseconds; a timestamp that is not a string,
    or that the ISO parser rejects, gives 0. *)
Theorem parse_ts_ms_zulu (s : string) (v : json) :
  parse_ts_ms fromisoformat_ms (JStr (Py.replace_Z s))
    = parse_ts_ms fromisoformat_ms (JStr s)
  /\ (isinstance_str v = false -> parse_ts_ms fromisoformat_ms v = 0%Z)
  /\ (fromisoformat_ms (Py.replace_Z s) = None ->
      parse_ts_ms fromisoformat_ms (JStr s) = 0%Z).
Proof.
  split; [|split].
  - cbn [parse_ts_ms]. now rewrite replace_Z_idem.
  - destruct v; try reflexivity. discriminate.
  - cbn [parse_ts_ms]. now intros ->.
Qed.

(** ** Identifiers in the output *)

(** A string of eight lowercase hexadecimal digits. *)
Definition is_short_id (v : json) : bool :=
  match v with
  | JStr h => Nat.eqb (String.length h) 8 && forallb lower_hex (list_ascii_of_string h)
  | _ => false
  end.

Lemma is_short_id_short_id (s h : string) :
  short_id s = Ok h -> is_short_id (JStr h) = true.
Proof.
  intros H. cbn [is_short_id].
  now rewrite (short_id_length s h H), (short_id_hex s h H).
Qed.

(** The identifiers of a record of the output are short. *)
Definition short_ids (m : json) : Prop :=
  is_short_id (field m "id") = true
  /\ (field m "parentId" = JNull \/ is_short_id (field m "parentId") = true).

Lemma convert_lines_short_ids (filter_commands : bool) (first_ts : json)
    (lines : list string) (st st' : state) :
  memo_ok (id_map st) ->
  List.Forall short_ids (out st) ->
  convert_lines loads uuid4 fromisoformat_ms filter_commands first_ts lines st = Ok st' ->
  List.Forall short_ids (out st').
Proof.
  revert st. induction lines as [|line lines IH]; intros st Hm HF; cbn [convert_lines].
  { now intros [= <-]. }
  destruct (convert_line _ _ _ _ _ _ _) as [st1|e] eqn:E; cbn [rbind]; [|discriminate].
  apply IH.
  - now apply convert_line_invariant in E.
  - unfold convert_line in E.
    destruct (is_empty _); [now injection E as <-|].
    destruct (loads _) as [d|]; [|now injection E as <-].
    destruct d as [| | | | | |d]; try discriminate E.
    apply convert_record_inv in E as [->|(msg & norm & _ & _ & _ & _ & E)];
      [assumption|].
    apply write_message_inv in E as (u & h & ps & m & _ & Hh & Hp & _ & ->);
      [|assumption].
    cbn [out emit]. apply List.Forall_app. split; [assumption|].
    constructor; [|constructor].
    pose proof (oc_message_fields fromisoformat_ms h ps
                  (get_default d "timestamp" first_ts) (get msg "role") norm msg)
      as (_ & F2 & F3 & _).
    unfold short_ids. rewrite F2, F3. split; [exact (is_short_id_short_id u h Hh)|].
    destruct Hp as [pu Hf|p hp Ht Hhp]; [now left | right].
    exact (is_short_id_short_id p hp Hhp).
Qed.

(** In a run that returns, every record after the session header has an
    [id] of eight lowercase hexadecimal digits and a [parentId] that is null
    or such an identifier. *)
Theorem output_ids_are_short (input : list string) (session_id cwd : string)
    (filter_commands : bool) (r : conversion) :
  convert loads now uuid4 fromisoformat_ms py_str input session_id cwd filter_commands
    = Ok r ->
  List.Forall short_ids (skipn 1 (output r)).
Proof.
  intros H.
  apply convert_inv in H as (m & p & change_id & st & _ & Hid & Hl & -> & _).
  cbn [skipn]. constructor.
  - unfold short_ids, model_change_record. cbn [field get get_default lookup_key
      String.eqb Ascii.eqb Bool.eqb].
    split; [exact (is_short_id_short_id _ _ Hid) | now left].
  - apply (convert_lines_short_ids filter_commands (firstTimestamp r) input
             init_state st); [apply memo_ok_empty | constructor | exact Hl].
Qed.

(** * Validation of the written file *)

(** [validate_output]: each line of the written file is stripped and
    parsed; the count of valid lines is returned with [True] at the end of
    the file, or with [False] at the first line that does not parse. The
    message printed for that line is not modelled. *)
Fixpoint validate_lines (lines : list string) (count : nat) : bool * nat :=
  match lines with
  | [] => (true, count)
  | line :: rest =>
      match loads (Py.strip line) with
      | Some _ => validate_lines rest (S count)
      | None => (false, count)
      end
  end.

Definition validate_output (lines : list string) : bool * nat :=
  validate_lines lines 0.

(** The line feed that ends every written line. *)
Definition newline : string := String (ascii_of_nat 10) EmptyString.

(** The lines of the output file as the file iterator returns them, for a
    serialiser [dumps] that stands for [json.dumps]. *)
Definition written_lines (dumps : json -> string) (records : list json) : list string :=
  map (fun v => (dumps v ++ newline)%string) records.

Definition parses (line : string) : Prop := loads (Py.strip line) <> None.

Lemma validate_lines_spec (lines : list string) (n : nat) (valid : bool) (count : nat) :
  validate_lines lines n = (valid, count) ->
  n <= count
  /\ List.Forall parses (firstn (count - n) lines)
  /\ (if valid then count = n + length lines
      else count < n + length lines
           /\ exists line, nth_error lines (count - n) = Some line
                           /\ loads (Py.strip line) = None).
Proof.
  revert n. induction lines as [|line lines IH]; intros n; cbn [validate_lines].
  - intros [= <- <-]. rewrite Nat.sub_diag. cbn. repeat split; auto with lia.
  - destruct (loads (Py.strip line)) as [v|] eqn:E.
    + intros H. apply IH in H as (Hle & HF & Hv).
      split; [lia|].
      replace (count - n) with (S (count - S n)) by lia. cbn [firstn nth_error].
      split.
      * constructor; [unfold parses; congruence | exact HF].
      * destruct valid; cbn [length]; [lia|].
        destruct Hv as (Hlt & l & Hl & Hn). split; [lia | eauto].
    + intros [= <- <-]. rewrite Nat.sub_diag. cbn [firstn nth_error length].
      split; [lia|]. split; [constructor|]. split; [lia | eauto].
Qed.

(** [validate_output] returns the number of lines that parse before the
    first one that does not: with [True] that is every line of the file;
    with [False] the line at that index (the one reported) does not parse. *)
Theorem validate_output_spec (lines : list string) (valid : bool) (count : nat) :
  validate_output lines = (valid, count) ->
  List.Forall parses (firstn count lines)
  /\ (if valid then count = length lines
      else count < length lines
           /\ exists line, nth_error lines count = Some line
                           /\ loads (Py.strip line) = None).
Proof.
  intros H. apply validate_lines_spec in H as (_ & HF & Hv).
  rewrite Nat.sub_0_r in HF, Hv. split; [exact HF|]. exact Hv.
Qed.

Lemma validate_lines_all (lines : list string) (n : nat) :
  List.Forall parses lines -> validate_lines lines n = (true, n + length lines).
Proof.
  intros H. revert n. induction H as [|line lines Hp _ IH]; intros n;
    cbn [validate_lines length].
  - now rewrite Nat.add_0_r.
  - unfold parses in Hp. destruct (loads (Py.strip line)); [|congruence].
    rewrite IH. f_equal. lia.
Qed.

(** When [json.loads] parses what [json.dumps] writes, the file written by a
    run that returns always validates, with two lines more than the number
    of converted records. *)
Theorem validate_converted_output (dumps : json -> string) (input : list string)
    (session_id cwd : string) (filter_commands : bool) (r : conversion) :
  (forall v, loads (Py.strip (dumps v ++ newline)) <> None) ->
  convert loads now uuid4 fromisoformat_ms py_str input session_id cwd filter_commands
    = Ok r ->
  validate_output (written_lines dumps (output r)) = (true, 2 + convertedCount r).
Proof.
  intros Hrt H. unfold validate_output.
  rewrite validate_lines_all.
  - unfold written_lines. rewrite length_map.
    apply convert_inv in H as (m & p & change_id & st & _ & _ & Hl & -> & -> & _).
    apply convert_lines_counts in Hl as (_ & _ & H3). cbn in H3 |- *.
    f_equal. lia.
  - unfold written_lines. apply List.Forall_forall. intros line Hin.
    apply in_map_iff in Hin as (v & <- & _). apply Hrt.
Qed.

(** * Registration *)

(** The registry file as [register_session] finds it: no file at the path;
    a file that cannot be opened or read ([OSError]); a file whose bytes
    are not text in the encoding [open] reads it with; a file that holds
    the given text. *)
Inductive stored : Type :=
| Missing
| Unreadable
| Undecodable
| Content (text : string).

(** [o[k] = v] on a dict: an existing key keeps its place. *)
Fixpoint dict_set (o : list (string * json)) (k : string) (v : json)
  : list (string * json) :=
  match o with
  | [] => [(k, v)]
  | (k', v') :: o' =>
      if String.eqb k' k then (k, v) :: o'
      else (k', v') :: dict_set o' k v
  end.

Definition session_key (agent_id : string) : string :=
  ("agent:" ++ agent_id ++ ":claude-code-import")%string.

Definition session_entry (session_id : string) (updated_at : Z) (model_id : json)
    (abs_output : string) (label : option string) : json :=
  let default := ("Claude Code import (" ++ session_id ++ ")")%string in
  JObj [("sessionId", JStr session_id);
        ("updatedAt", JInt updated_at);
        ("systemSent", JBool false);
        ("abortedLastRun", JBool false);
        ("inputTokens", JInt 0);
        ("outputTokens", JInt 0);
        ("totalTokens", JInt 0);
        ("totalTokensFresh", JBool false);
        ("model", model_id);
        ("modelProvider", JStr "anthropic");
        ("contextTokens", JInt 0);
        ("sessionFile", JStr abs_output);
        ("authProfileOverride", JStr "anthropic:api-key");
        ("label", JStr (match label with
                        | Some l => if is_empty l then default else l
                        | None => default
                        end))].

(** What a call of [register_session] leaves behind: the returned flag, the
    store handed to [json.dump], and the text moved to the backup file. *)
Record registration : Type := mkRegistration {
  registered : bool;
  store_written : option json;
  backup : option string
}.

Definition not_registered : registration :=
  {| registered := false; store_written := None; backup := None |}.

(** [register_session]. [rename_ok] tells whether [os.rename] to the backup
    path succeeds, [updated_at] is [int(time.time() * 1000)] and
    [abs_output] the resolved output path. The [except] clause around
    [json.load] catches [JSONDecodeError] and [OSError] only: the
    [UnicodeDecodeError] of a file that is not text passes through it. Item
    assignment on a store that is not a dict raises [TypeError]. Both
    exceptions are raised before anything is renamed or written. *)
Definition register_session (store : stored) (rename_ok : bool)
    (session_id abs_output agent_id : string) (label : option string)
    (model_id : json) (updated_at : Z) : result registration :=
  match store with
  | Missing => Ok not_registered
  | Unreadable => Ok not_registered
  | Undecodable => Raise UnicodeDecodeError
  | Content text =>
      match loads text with
      | None => Ok not_registered
      | Some (JObj o) =>
          let entry := session_entry session_id updated_at model_id abs_output label in
          Ok {| registered := true;
                store_written := Some (JObj (dict_set o (session_key agent_id) entry));
                backup := if rename_ok then Some text else None |}
      | Some _ => Raise TypeError
      end
  end.

Lemma lookup_dict_set (o : list (string * json)) (k k' : string) (v : json) :
  lookup_key (dict_set o k v) k'
  = if String.eqb k k' then Some v else lookup_key o k'.
Proof.
  induction o as [|[k0 v0] o IH]; cbn [dict_set lookup_key].
  - reflexivity.
  - destruct (String.eqb_spec k0 k) as [->|Hne]; cbn [lookup_key].
    + destruct (String.eqb k k'); reflexivity.
    + rewrite IH. destruct (String.eqb_spec k k') as [<-|Hne'].
      * destruct (String.eqb_spec k0 k); [congruence | reflexivity].
      * reflexivity.
Qed.

Lemma dict_set_twice (o : list (string * json)) (k : string) (v1 v2 : json) :
  dict_set (dict_set o k v1) k v2 = dict_set o k v2.
Proof.
  induction o as [|[k0 v0] o IH]; cbn [dict_set].
  - now rewrite String.eqb_refl.
  - destruct (String.eqb k0 k) eqn:E; cbn [dict_set].
    + now rewrite String.eqb_refl.
    + now rewrite E, IH.
Qed.

Lemma dict_set_length (o : list (string * json)) (k : string) (v : json) :
  length (dict_set o k v)
  = match lookup_key o k with Some _ => length o | None => S (length o) end.
Proof.
  induction o as [|[k0 v0] o IH]; cbn [dict_set lookup_key length]; [reflexivity|].
  destruct (String.eqb k0 k); cbn [length]; [reflexivity|].
  rewrite IH. now destruct (lookup_key o k).
Qed.

(** A registration that succeeds writes the old store with the entry of
    the agent's key set: that key maps to the new entry, every other key
    keeps its value, and the store grows by one entry exactly when the key
    was not there. The old text goes to the backup when the rename
    succeeds. *)
Theorem register_session_updates (text : string) (o : list (string * json))
    (rename_ok : bool) (session_id abs_output agent_id : string)
    (label : option string) (model_id : json) (updated_at : Z) :
  loads text = Some (JObj o) ->
  exists o',
    register_session (Content text) rename_ok session_id abs_output agent_id label
      model_id updated_at
    = Ok {| registered := true; store_written := Some (JObj o');
            backup := if rename_ok then Some text else None |}
    /\ lookup_key o' (session_key agent_id)
       = Some (session_entry session_id updated_at model_id abs_output label)
    /\ (forall k, k <> session_key agent_id -> lookup_key o' k = lookup_key o k)
    /\ length o'
       = match lookup_key o (session_key agent_id) with
         | Some _ => length o
         | None => S (length o)
         end.
Proof.
  intros Hl. eexists. split; [cbn [register_session]; rewrite Hl; reflexivity|].
  split; [|split].
  - now rewrite lookup_dict_set, String.eqb_refl.
  - intros k Hk. rewrite lookup_dict_set.
    destruct (String.eqb_spec (session_key agent_id) k); [congruence | reflexivity].
  - apply dict_set_length.
Qed.

(** [register_session] changes nothing unless it returns [True]. It returns
    [False], with nothing written and no backup made, when the registry is
    missing, cannot be read, or holds text that is not JSON. It raises
    [UnicodeDecodeError] when the registry is not text, and [TypeError] when
    the registry holds JSON that is not an object; neither is caught. *)
Theorem register_session_failures (store : stored) (rename_ok : bool)
    (session_id abs_output agent_id : string) (label : option string)
    (model_id : json) (updated_at : Z) :
  (forall res,
     register_session store rename_ok session_id abs_output agent_id label
       model_id updated_at = Ok res ->
     registered res = false ->
     store_written res = None /\ backup res = None)
  /\ (store = Missing \/ store = Unreadable
      \/ (exists text, store = Content text /\ loads text = None) ->
      register_session store rename_ok session_id abs_output agent_id label
        model_id updated_at = Ok not_registered)
  /\ (store = Undecodable ->
      register_session store rename_ok session_id abs_output agent_id label
        model_id updated_at = Raise UnicodeDecodeError)
  /\ (forall text v,
        store = Content text -> loads text = Some v -> isinstance_dict v = false ->
        register_session store rename_ok session_id abs_output agent_id label
          model_id updated_at = Raise TypeError).
Proof.
  split; [|split; [|split]].
  - intros res H Hr. destruct store as [| | |text]; cbn [register_session] in H;
      try discriminate H; try (injection H as <-; now split).
    destruct (loads text) as [[| | | | | |o]|]; try discriminate H;
      injection H as <-; [discriminate Hr | now split].
  - intros [->|[->|(text & -> & Hl)]]; cbn [register_session]; try reflexivity.
    now rewrite Hl.
  - intros ->. reflexivity.
  - intros text v -> Hl Hv. cbn [register_session]. rewrite Hl.
    destruct v; try reflexivity. discriminate Hv.
Qed.

(** Registering again for the same agent replaces the entry: a second
    registration that reads the store written by a first one writes what it
    would have written on the original store. *)
Theorem register_session_replaces (text1 text2 : string) (o o1 : list (string * json))
    (rename1 rename2 : bool) (sid1 sid2 out1 out2 agent_id : string)
    (label1 label2 : option string) (model1 model2 : json) (t1 t2 : Z)
    (res1 : registration) :
  loads text1 = Some (JObj o) ->
  register_session (Content text1) rename1 sid1 out1 agent_id label1 model1 t1
    = Ok res1 ->
  store_written res1 = Some (JObj o1) ->
  loads text2 = Some (JObj o1) ->
  exists res2 res,
    register_session (Content text2) rename2 sid2 out2 agent_id label2 model2 t2
      = Ok res2
    /\ register_session (Content text1) rename2 sid2 out2 agent_id label2 model2 t2
       = Ok res
    /\ store_written res2 = store_written res
    /\ length o1 <= S (length o).
Proof.
  intros H1 Hr1 Hw1 H2. cbn [register_session] in *. rewrite H1 in Hr1 |- *.
  rewrite H2. injection Hr1 as <-. cbn in Hw1. injection Hw1 as <-.
  eexists _, _. split; [reflexivity|]. split; [reflexivity|]. split.
  - cbn. now rewrite dict_set_twice.
  - rewrite dict_set_length. destruct (lookup_key o _); lia.
Qed.

End Pipeline.

(** * The further properties at concrete files *)

(** A second parser: it knows the lines of the session above, a line that
    holds a JSON list, two registry files, and it takes every other text
    that starts with a brace for an object. [dumps] writes every record as
    an empty object. *)
Module Files.

Definition registry : list (string * json) :=
  [("agent:other:claude-code-import", JObj [("sessionId", JStr "old")]);
   ("version", JInt 1)].

Definition first_entry : json :=
  session_entry "sess1" 1000 (JStr "claude-3") "/out/sess1.jsonl" None.

Definition registry_after : list (string * json) :=
  dict_set registry (session_key "main") first_entry.

Definition table : list (string * json) :=
  Demo.table
  ++ [("list", JArr []);
      ("registry", JObj registry);
      ("registry_after", JObj registry_after);
      ("registry_list", JArr [JInt 1])].

Definition loads (text : string) : option json :=
  match lookup_key table text with
  | Some v => Some v
  | None => if Py.starts_with "{" text then Some (JObj []) else None
  end.

Definition dumps (v : json) : string := "{}".

Definition run (input : list string) (filter_commands : bool) : result conversion :=
  convert loads Demo.now Demo.uuid4 Demo.fromisoformat_ms Demo.py_str input
    "sess" "/home/user" filter_commands.

End Files.

Definition demo_input : list string :=
  ["user_hello"; "  "; "junk"; "system"; "assistant_hi"; "noise"; "no_timestamp"].

Lemma convert_record_returns_witness :
  exists st',
    convert_record Demo.uuid4 Demo.fromisoformat_ms true (JStr Demo.now)
      (JObj Demo.user_hello) init_state = Ok st'
    /\ (st' = skip init_state
        \/ (converted st' = S (converted init_state)
            /\ skipped st' = skipped init_state
            /\ errors st' = errors init_state
            /\ exists m, out st' = out init_state ++ [m])).
Proof.
  apply (convert_record_returns Demo.uuid4 Demo.fromisoformat_ms true
           (JStr Demo.now) Demo.user_hello init_state).
  - reflexivity.
  - reflexivity.
  - intros H. discriminate H.
Defined.

Lemma filter_only_removes_witness :
  convert_record Demo.uuid4 Demo.fromisoformat_ms false (JStr Demo.now)
    (JObj Demo.user_hello) init_state
  = Ok (Demo.returned init_state
          (convert_record Demo.uuid4 Demo.fromisoformat_ms true (JStr Demo.now)
             (JObj Demo.user_hello) init_state)).
Proof.
  apply (filter_only_removes Demo.uuid4 Demo.fromisoformat_ms (JStr Demo.now)
           Demo.user_hello init_state).
  - vm_compute. reflexivity.
  - intros H. apply (f_equal converted) in H. vm_compute in H. discriminate H.
Defined.

Lemma filter_spares_other_roles_witness :
  convert_record Demo.uuid4 Demo.fromisoformat_ms true (JStr Demo.now)
    (JObj Demo.assistant_hi) init_state
  = convert_record Demo.uuid4 Demo.fromisoformat_ms false (JStr Demo.now)
      (JObj Demo.assistant_hi) init_state.
Proof.
  apply (filter_spares_other_roles Demo.uuid4 Demo.fromisoformat_ms (JStr Demo.now)
           Demo.assistant_hi init_state).
  reflexivity.
Defined.

Lemma counters_account_for_lines_witness :
  let r := Demo.returned Demo.empty_conversion (Demo.run demo_input true) in
  convertedCount r + skippedCount r + errorCount r
    = length (List.filter nonblank demo_input)
  /\ errorCount r = length (List.filter (unparsable Demo.loads) demo_input).
Proof.
  apply (counters_account_for_lines Demo.loads Demo.now Demo.uuid4
           Demo.fromisoformat_ms Demo.py_str demo_input "sess" "/home/user" true).
  vm_compute. reflexivity.
Defined.

Lemma output_size_witness :
  let r := Demo.returned Demo.empty_conversion (Demo.run demo_input true) in
  length (output r) = 2 + convertedCount r.
Proof.
  apply (output_size Demo.loads Demo.now Demo.uuid4
           Demo.fromisoformat_ms Demo.py_str demo_input "sess" "/home/user" true).
  vm_compute. reflexivity.
Defined.

Lemma non_object_line_aborts_witness :
  Files.run ["user_hello"; "list"; "assistant_hi"] true <> Ok Demo.empty_conversion.
Proof.
  apply (non_object_line_aborts Files.loads Demo.now Demo.uuid4
           Demo.fromisoformat_ms Demo.py_str
           ["user_hello"; "list"; "assistant_hi"] ["user_hello"] ["assistant_hi"]
           "list" (JArr [])).
  - reflexivity.
  - split; reflexivity.
  - reflexivity.
Defined.


Lemma detect_model_stops_at_model_witness :
  detect_model Demo.loads Demo.now (["user_hello"] ++ "assistant_hi" :: ["no_timestamp"])
  = detect_model Demo.loads Demo.now (["user_hello"] ++ ["assistant_hi"]).
Proof.
  apply (detect_model_stops_at_model Demo.loads Demo.now ["user_hello"]
           ["no_timestamp"] "assistant_hi" (JObj Demo.assistant_hi)).
  - split; reflexivity.
  - reflexivity.
Defined.

Lemma detect_model_first_timestamp_witness :
  JStr "2024-01-01T00:00:00Z" = get Demo.user_hello "timestamp".
Proof.
  apply (detect_model_first_timestamp Demo.loads Demo.now
           ["  "; "junk"; "blank"] ["assistant_hi"] "user_hello" Demo.user_hello
           (JStr "2024-01-01T00:00:00Z") (JStr "anthropic/claude-3")).
  - constructor; [left; reflexivity|].
    constructor; [left; reflexivity|].
    constructor; [|constructor].
    right. exists Demo.blank. repeat split; reflexivity.
  - split; reflexivity.
  - reflexivity.
  - vm_compute. reflexivity.
Defined.


Lemma header_model_witness :
  let r := Demo.returned Demo.empty_conversion
             (Demo.run ["user_hello"; "assistant_hi"] true) in
  exists p m,
    field (nth 1 (output r) JNull) "provider" = JStr p
    /\ field (nth 1 (output r) JNull) "modelId" = JStr m
    /\ modelId r = JStr m
    /\ field (nth 0 (output r) JNull) "model" = JStr (p ++ "/" ++ m)%string
    /\ (if Py.contains "/" "anthropic/claude-3"
        then "anthropic/claude-3" = (p ++ "/" ++ m)%string
             /\ Py.contains "/" p = false
        else p = "anthropic" /\ m = "anthropic/claude-3").
Proof.
  apply (header_model Demo.loads Demo.now Demo.uuid4 Demo.fromisoformat_ms
           Demo.py_str ["user_hello"; "assistant_hi"] "sess" "/home/user" true
           (Demo.returned Demo.empty_conversion
              (Demo.run ["user_hello"; "assistant_hi"] true))
           (JStr "2024-01-01T00:00:00Z") "anthropic/claude-3").
  - vm_compute. reflexivity.
  - vm_compute. reflexivity.
Defined.

Lemma parse_ts_ms_zulu_witness :
  parse_ts_ms Demo.fromisoformat_ms (JStr "2024-01-01T00:00:00+00:00")
    = parse_ts_ms Demo.fromisoformat_ms (JStr "2024-01-01T00:00:00Z")
  /\ parse_ts_ms Demo.fromisoformat_ms (JInt 5) = 0%Z
  /\ parse_ts_ms Demo.fromisoformat_ms (JStr "yesterday") = 0%Z.
Proof.
  split; [|split].
  - apply (proj1 (parse_ts_ms_zulu Demo.fromisoformat_ms "2024-01-01T00:00:00Z"
                    JNull)).
  - apply (proj1 (proj2 (parse_ts_ms_zulu Demo.fromisoformat_ms "" (JInt 5)))).
    reflexivity.
  - apply (proj2 (proj2 (parse_ts_ms_zulu Demo.fromisoformat_ms "yesterday" JNull))).
    reflexivity.
Defined.

Lemma output_ids_are_short_witness :
  List.Forall short_ids
    (skipn 1 (output (Demo.returned Demo.empty_conversion (Demo.run demo_input true)))).
Proof.
  apply (output_ids_are_short Demo.loads Demo.now Demo.uuid4 Demo.fromisoformat_ms
           Demo.py_str demo_input "sess" "/home/user" true).
  vm_compute. reflexivity.
Defined.

Lemma validate_output_spec_witness :
  List.Forall (parses Demo.loads) (firstn 1 ["user_hello"; "junk"; "system"])
  /\ 1 < length ["user_hello"; "junk"; "system"]
  /\ exists line, nth_error ["user_hello"; "junk"; "system"] 1 = Some line
                  /\ Demo.loads (Py.strip line) = None.
Proof.
  apply (validate_output_spec Demo.loads ["user_hello"; "junk"; "system"] false 1).
  reflexivity.
Defined.

Lemma validate_converted_output_witness :
  let r := Demo.returned Demo.empty_conversion
             (Files.run ["user_hello"; "assistant_hi"] true) in
  validate_output Files.loads (written_lines Files.dumps (output r))
  = (true, 2 + convertedCount r).
Proof.
  apply (validate_converted_output Files.loads Demo.now Demo.uuid4
           Demo.fromisoformat_ms Demo.py_str Files.dumps
           ["user_hello"; "assistant_hi"] "sess" "/home/user" true).
  - intros v H. vm_compute in H. discriminate H.
  - vm_compute. reflexivity.
Defined.

Lemma register_session_updates_witness :
  exists o',
    register_session Files.loads (Content "registry") true "sess1" "/out/sess1.jsonl"
      "main" None (JStr "claude-3") 1000
    = Ok {| registered := true; store_written := Some (JObj o');
            backup := Some "registry" |}
    /\ lookup_key o' (session_key "main") = Some Files.first_entry
    /\ (forall k, k <> session_key "main" ->
                  lookup_key o' k = lookup_key Files.registry k)
    /\ length o' = 3.
Proof.
  apply (register_session_updates Files.loads "registry" Files.registry true
           "sess1" "/out/sess1.jsonl" "main" None (JStr "claude-3") 1000).
  reflexivity.
Defined.

Lemma register_session_failures_witness :
  (store_written not_registered = None /\ backup not_registered = None)
  /\ register_session Files.loads (Content "junk") true "sess1"
       "/out/sess1.jsonl" "main" None (JStr "claude-3") 1000
     = Ok not_registered
  /\ register_session Files.loads Undecodable true "sess1"
       "/out/sess1.jsonl" "main" None (JStr "claude-3") 1000
     = Raise UnicodeDecodeError
  /\ register_session Files.loads (Content "registry_list") true "sess1"
       "/out/sess1.jsonl" "main" None (JStr "claude-3") 1000
     = Raise TypeError.
Proof.
  split; [|split; [|split]].
  - apply (proj1 (register_session_failures Files.loads Missing true "sess1"
                    "/out/sess1.jsonl" "main" None (JStr "claude-3") 1000)
             not_registered); reflexivity.
  - apply (proj1 (proj2 (register_session_failures Files.loads (Content "junk")
                    true "sess1" "/out/sess1.jsonl" "main" None (JStr "claude-3")
                    1000))).
    right. right. exists "junk". split; reflexivity.
  - apply (proj1 (proj2 (proj2 (register_session_failures Files.loads Undecodable
                    true "sess1" "/out/sess1.jsonl" "main" None (JStr "claude-3")
                    1000)))).
    reflexivity.
  - apply (proj2 (proj2 (proj2 (register_session_failures Files.loads
                    (Content "registry_list") true "sess1" "/out/sess1.jsonl"
                    "main" None (JStr "claude-3") 1000)))
             "registry_list" (JArr [JInt 1])); reflexivity.
Defined.

Lemma register_session_replaces_witness :
  exists res2 res,
    register_session Files.loads (Content "registry_after") false "sess2"
      "/out/sess2.jsonl" "main" (Some "second") (JStr "claude-4") 2000 = Ok res2
    /\ register_session Files.loads (Content "registry") false "sess2"
         "/out/sess2.jsonl" "main" (Some "second") (JStr "claude-4") 2000 = Ok res
    /\ store_written res2 = store_written res
    /\ length Files.registry_after <= S (length Files.registry).
Proof.
  apply (register_session_replaces Files.loads "registry" "registry_after"
           Files.registry Files.registry_after true false "sess1" "sess2"
           "/out/sess1.jsonl" "/out/sess2.jsonl" "main" None (Some "second")
           (JStr "claude-3") (JStr "claude-4") 1000 2000
           {| registered := true;
              store_written := Some (JObj Files.registry_after);
              backup := Some "registry" |}); reflexivity.
Defined.

(** * Streaming *)

Lemma convert_lines_monotone (loads : string -> option json) (uuid4 : nat -> string)
    (fromisoformat_ms : string -> option Z) (filter_commands : bool)
    (first_ts : json) (lines : list string) (st st' : state) :
  convert_lines loads uuid4 fromisoformat_ms filter_commands first_ts lines st = Ok st' ->
  converted st <= converted st' /\ skipped st <= skipped st'
  /\ errors st <= errors st'.
Proof.
  revert st. induction lines as [|line lines IH]; intros st; cbn [convert_lines].
  { intros [= <-]. lia. }
  destruct (convert_line _ _ _ _ _ _ _) as [st1|e] eqn:E; cbn [rbind]; [|discriminate].
  intros H. apply IH in H as (H1 & H2 & H3).
  assert (converted st <= converted st1 /\ skipped st <= skipped st1
          /\ errors st <= errors st1) as (G1 & G2 & G3); [|lia].
  unfold convert_line in E.
  destruct (is_empty _); [injection E as <-; lia|].
  destruct (loads _) as [d|]; [|injection E as <-; cbn; lia].
  destruct d as [| | | | | |d]; try discriminate E.
  apply convert_record_inv in E as [->|(msg & norm & _ & _ & _ & _ & E)];
    [cbn; lia|].
  apply write_message_counts in E as (-> & -> & -> & _). lia.
Qed.

(** The loop writes in input order and never rewrites a line: in a run over
    [l1 ++ l2] that returns, the run over [l1] alone returns too, the lines
    it writes are a prefix of the lines of the whole run, and no counter
    decreases afterwards. *)
Theorem output_prefix_stable (loads : string -> option json) (uuid4 : nat -> string)
    (fromisoformat_ms : string -> option Z) (filter_commands : bool)
    (first_ts : json) (l1 l2 : list string) (st : state) :
  convert_lines loads uuid4 fromisoformat_ms filter_commands first_ts (l1 ++ l2)
    init_state = Ok st ->
  exists st1 rest,
    convert_lines loads uuid4 fromisoformat_ms filter_commands first_ts l1 init_state
      = Ok st1
    /\ convert_lines loads uuid4 fromisoformat_ms filter_commands first_ts l2 st1
       = Ok st
    /\ out st = out st1 ++ rest
    /\ converted st1 <= converted st
    /\ skipped st1 <= skipped st
    /\ errors st1 <= errors st.
Proof.
  rewrite convert_lines_app.
  destruct (convert_lines loads uuid4 fromisoformat_ms filter_commands first_ts l1
              init_state) as [st1|e] eqn:E1; cbn [rbind]; [|discriminate].
  intros E2.
  assert (Hm1 : memo_ok (id_map st1)).
  { apply (convert_lines_invariant loads uuid4 fromisoformat_ms) in E1 as [H _];
      [exact H | apply memo_ok_empty]. }
  destruct (convert_lines_invariant loads uuid4 fromisoformat_ms _ _ _ _ _ Hm1 E2)
    as (_ & rest & Hrest).
  pose proof (convert_lines_monotone loads uuid4 fromisoformat_ms _ _ _ _ _ E2)
    as (H1 & H2 & H3).
  exists st1, rest. repeat split; assumption.
Qed.

Lemma output_prefix_stable_witness :
  exists st1 rest,
    convert_lines Demo.loads Demo.uuid4 Demo.fromisoformat_ms true (JStr Demo.now)
      ["user_hello"; "junk"] init_state = Ok st1
    /\ convert_lines Demo.loads Demo.uuid4 Demo.fromisoformat_ms true (JStr Demo.now)
         ["system"; "assistant_hi"] st1
       = Ok (Demo.returned init_state
               (convert_lines Demo.loads Demo.uuid4 Demo.fromisoformat_ms true
                  (JStr Demo.now)
                  (["user_hello"; "junk"] ++ ["system"; "assistant_hi"]) init_state))
    /\ out (Demo.returned init_state
              (convert_lines Demo.loads Demo.uuid4 Demo.fromisoformat_ms true
                 (JStr Demo.now)
                 (["user_hello"; "junk"] ++ ["system"; "assistant_hi"]) init_state))
       = out st1 ++ rest
    /\ converted st1
       <= converted (Demo.returned init_state
              (convert_lines Demo.loads Demo.uuid4 Demo.fromisoformat_ms true
                 (JStr Demo.now)
                 (["user_hello"; "junk"] ++ ["system"; "assistant_hi"]) init_state))
    /\ skipped st1
       <= skipped (Demo.returned init_state
              (convert_lines Demo.loads Demo.uuid4 Demo.fromisoformat_ms true
                 (JStr Demo.now)
                 (["user_hello"; "junk"] ++ ["system"; "assistant_hi"]) init_state))
    /\ errors st1
       <= errors (Demo.returned init_state
              (convert_lines Demo.loads Demo.uuid4 Demo.fromisoformat_ms true
                 (JStr Demo.now)
                 (["user_hello"; "junk"] ++ ["system"; "assistant_hi"]) init_state)).
Proof.
  apply (output_prefix_stable Demo.loads Demo.uuid4 Demo.fromisoformat_ms true
           (JStr Demo.now) ["user_hello"; "junk"] ["system"; "assistant_hi"]).
  vm_compute. reflexivity.
Defined.

(** * Identifiers that are not strings *)

Lemma get_short_returns_str (v : json) (st : state) (x : string * state) :
  get_short v st = Ok x -> isinstance_str v = true.
Proof. destruct v; try discriminate; reflexivity. Qed.

(** A record is written only if its [uuid] is a string or is missing, and
    its [parentUuid] is a string or is falsy: a [uuid] that is null, a
    number or a list is not replaced by a fresh identifier, it makes
    [get_short] raise. *)
Theorem written_record_has_string_ids (uuid4 : nat -> string)
    (fromisoformat_ms : string -> option Z) (filter_commands : bool)
    (first_ts : json) (d : list (string * json)) (st st' : state) :
  convert_record uuid4 fromisoformat_ms filter_commands first_ts (JObj d) st = Ok st' ->
  st' <> skip st ->
  isinstance_str (get_default d "uuid" (JStr "")) = true
  /\ (truthy (get d "parentUuid") = true -> isinstance_str (get d "parentUuid") = true).
Proof.
  intros H Hns.
  apply convert_record_inv in H as [->|(msg & norm & _ & _ & _ & _ & H)];
    [congruence|].
  unfold write_message in H.
  destruct (get_short _ (fresh_uuid st)) as [[short st1]|e] eqn:E1;
    [|discriminate H].
  apply get_short_returns_str in E1. cbn [rbind] in H. split.
  - unfold get_default in *. now destruct (lookup_key d "uuid").
  - intros Hp. rewrite Hp in H.
    destruct (get_short (get d "parentUuid") st1) as [x|e] eqn:E2;
      [|discriminate H].
    now apply get_short_returns_str in E2.
Qed.

Lemma written_record_has_string_ids_witness :
  isinstance_str (get_default Demo.assistant_hi "uuid" (JStr "")) = true
  /\ (truthy (get Demo.assistant_hi "parentUuid") = true ->
      isinstance_str (get Demo.assistant_hi "parentUuid") = true).
Proof.
  apply (written_record_has_string_ids Demo.uuid4 Demo.fromisoformat_ms true
           (JStr Demo.now) Demo.assistant_hi init_state
           (Demo.returned init_state
              (convert_record Demo.uuid4 Demo.fromisoformat_ms true (JStr Demo.now)
                 (JObj Demo.assistant_hi) init_state))).
  - vm_compute. reflexivity.
  - intros H. apply (f_equal converted) in H. vm_compute in H. discriminate H.
Defined.
